(** * Meta Ads MCP server: pager and insights normaliser

    A shallow embedding of [facebook_client.py] (the [FacebookAdsClient]
    request and pagination methods) and of the insights tool of [server.py],
    together with the properties stated about them.

    Python values decoded from JSON are the inductive type [json]; a Python
    [dict] is an association list in insertion order with unique keys.  The
    HTTP library ([requests]) and the URL library ([urllib.parse]) are not
    part of the repository: the transport is an arbitrary state machine
    [requests_get], the URL functions are section variables. *)

From Stdlib Require Import ZArith List String Ascii Bool Lia DecimalString.
From Stdlib Require DecimalPos.
Import ListNotations.

Local Open Scope string_scope.
Local Open Scope list_scope.
Local Open Scope Z_scope.

Local Set Warnings "-register-all".

(** ** Python values *)

(** A float is kept as the exact decimal [mantissa * 10 ^ exponent] it was
    read from; binary rounding is not modelled. *)
Record decimal : Type := Decimal { mantissa : Z; exponent : Z }.

Inductive json : Type :=
| JNull
| JBool (b : bool)
| JInt (z : Z)
| JFloat (d : decimal)
| JStr (s : string)
| JArr (items : list json)
| JObj (fields : list (string * json)).

Definition dict : Type := list (string * json).

Module Dict.

Fixpoint get (k : string) (d : dict) : option json :=
  match d with
  | [] => None
  | (k', v) :: d' => if String.eqb k k' then Some v else get k d'
  end.

Definition mem (k : string) (d : dict) : bool :=
  match get k d with Some _ => true | None => false end.

(** [d[k] = v]: an existing key keeps its position, a new key goes last. *)
Fixpoint set (k : string) (v : json) (d : dict) : dict :=
  match d with
  | [] => [(k, v)]
  | (k', v') :: d' =>
      if String.eqb k k' then (k, v) :: d' else (k', v') :: set k v d'
  end.

(** [dict(pairs)]: later pairs overwrite earlier ones. *)
Definition of_pairs (l : list (string * string)) : dict :=
  fold_left (fun d kv => set (fst kv) (JStr (snd kv)) d) l [].

(** [d.update(other)]. *)
Definition update (d other : dict) : dict :=
  fold_left (fun acc kv => set (fst kv) (snd kv) acc) other d.

Definition keys (d : dict) : list string := map fst d.

End Dict.

(** ** Exceptions and results *)

Inductive exn : Type :=
| RequestException (msg : string)
    (* raised by [_make_request] after an HTTPError *)
| TransportFailure (detail : string)
    (* Timeout, ConnectionError, ...: raised by [requests.get] itself *)
| JSONDecodeError
| TypeError
| AttributeError
| KeyError (key : string)
| ValueError (msg : string).

(** [Diverged] is the outcome of a loop cut off by its fuel; no Python
    run ends with it. *)
Inductive result (A : Type) : Type :=
| Return (a : A)
| Raise (e : exn)
| Diverged.

Arguments Return {A} a.
Arguments Raise {A} e.
Arguments Diverged {A}.

Definition rbind {A B} (r : result A) (k : A -> result B) : result B :=
  match r with
  | Return a => k a
  | Raise e => Raise e
  | Diverged => Diverged
  end.

(** ** Python operations on decoded values *)

Definition is_str (s : string) (j : json) : bool :=
  match j with JStr s' => String.eqb s s' | _ => false end.

Definition is_substring (needle s : string) : bool :=
  match index 0 needle s with Some _ => true | None => false end.

(** [needle in container] for a string [needle]. *)
Definition py_contains (needle : string) (container : json) : result bool :=
  match container with
  | JObj d => Return (Dict.mem needle d)
  | JArr l => Return (existsb (is_str needle) l)
  | JStr s => Return (is_substring needle s)
  | _ => Raise TypeError
  end.

(** [container[key]] for a string [key]. *)
Definition py_getitem (container : json) (key : string) : result json :=
  match container with
  | JObj d =>
      match Dict.get key d with
      | Some v => Return v
      | None => Raise (KeyError key)
      end
  | _ => Raise TypeError
  end.

(** [obj.get(key, default)]: only a dict has the method. *)
Definition py_get (obj : json) (key : string) (default : json) : result json :=
  match obj with
  | JObj d =>
      Return (match Dict.get key d with Some v => v | None => default end)
  | _ => Raise AttributeError
  end.

Definition chars_of (s : string) : list json :=
  map (fun c => JStr (String c EmptyString)) (list_ascii_of_string s).

(** Iteration, as [list.extend] performs it on its argument. *)
Definition py_iter (v : json) : result (list json) :=
  match v with
  | JArr l => Return l
  | JObj d => Return (map JStr (Dict.keys d))
  | JStr s => Return (chars_of s)
  | _ => Raise TypeError
  end.

Definition string_of_Z (z : Z) : string :=
  NilZero.string_of_int (Z.to_int z).

(** [str(v)], as an f-string formats a value.  The text of floats and of
    containers is left to [repr]. *)
Definition py_str (repr : json -> string) (v : json) : string :=
  match v with
  | JStr s => s
  | JInt z => string_of_Z z
  | JBool true => "True"
  | JBool false => "False"
  | JNull => "None"
  | _ => repr v
  end.

(** ** The HTTP transport *)

Record response : Type := Response {
  status_code : Z;
  reason : string;
  url : string;
  json_body : option json  (* [None]: [response.json()] raises *)
}.

Inductive get_outcome : Type :=
| Responded (r : response)
| Failed (detail : string).

(** [Response.raise_for_status] of the [requests] library: an HTTPError,
    given here by its text, exactly for the statuses 400 to 599. *)
Definition raise_for_status (r : response) : option string :=
  let s := status_code r in
  if (400 <=? s) && (s <? 500) then
    Some (string_of_Z s ++ " Client Error: " ++ reason r
          ++ " for url: " ++ url r)%string
  else if (500 <=? s) && (s <? 600) then
    Some (string_of_Z s ++ " Server Error: " ++ reason r
          ++ " for url: " ++ url r)%string
  else None.

Record request : Type := Request {
  req_url : string;
  req_params : dict;
  req_timeout : Z
}.

(** ** facebook_client.py *)

Module facebook_client.

Record FacebookAdsClient : Type := Client {
  api_version : string;
  base_url : string;
  _access_token : string
}.

Definition truthy_token (t : option string) : option string :=
  match t with
  | Some EmptyString => None
  | other => other
  end.

(** [FacebookAdsClient.__init__]; [env_token] is
    [os.getenv('FACEBOOK_ACCESS_TOKEN')]. *)
Definition new_client (env_token access_token : option string)
    (version : string) : result FacebookAdsClient :=
  let token :=
    match truthy_token access_token with
    | Some t => Some t
    | None => env_token
    end in
  match truthy_token token with
  | Some t =>
      Return (Client version ("https://graph.facebook.com/" ++ version)%string t)
  | None =>
      Raise (ValueError
        ("Facebook access token must be provided via parameter or "
         ++ "FACEBOOK_ACCESS_TOKEN environment variable")%string)
  end.

Definition default_api_version : string := "v24.0".

(** The two lines that open every method taking an account id:
    [if not account_id.startswith('act_'): account_id = f'act_{account_id}']. *)
Definition act_prefixed (account_id : string) : string :=
  if prefix "act_" account_id then account_id
  else ("act_" ++ account_id)%string.

Section WithTransport.

(** The upstream server and network: any state machine answering GETs. *)
Variable World : Type.
Variable requests_get : request -> World -> get_outcome * World.

(** [urllib.parse.urlparse(v).query] and [urllib.parse.parse_qsl]. *)
Variable urlparse_query : json -> result string.
Variable parse_qsl : string -> list (string * string).

(** [repr] of floats and containers, and [json.dumps]. *)
Variable py_repr : json -> string.
Variable json_dumps : json -> string.

(** The state threaded through a call: the world, and the GETs issued so
    far with their outcomes, oldest first. *)
Record state : Type := State {
  world : World;
  exchanges : list (request * get_outcome)
}.

Definition M (A : Type) : Type := state -> result A * state.

Definition ret {A} (a : A) : M A := fun st => (Return a, st).

Definition bind {A B} (m : M A) (k : A -> M B) : M B :=
  fun st =>
    match m st with
    | (Return a, st') => k a st'
    | (Raise e, st') => (Raise e, st')
    | (Diverged, st') => (Diverged, st')
    end.

Definition lift {A} (r : result A) : M A := fun st => (r, st).

Definition http_get (rq : request) : M get_outcome :=
  fun st =>
    let (o, w) := requests_get rq (world st) in
    (Return o, State w (exchanges st ++ [(rq, o)])).

(** The [except HTTPError] block of [_make_request]: the message of the
    RequestException raised.  Every exception of the inner [try] leaves
    [error_msg] as it was last assigned. *)
Definition format_error (e : string) (r : response) : string :=
  let error_msg := ("Facebook API request failed: " ++ e)%string in
  match json_body r with
  | None => error_msg
  | Some error_json =>
      match py_contains "error" error_json with
      | Return true =>
          match py_getitem error_json "error" with
          | Return error_detail =>
              match py_get error_detail "code" (JStr "Unknown"),
                    py_get error_detail "message" (JStr e) with
              | Return code, Return message =>
                  let error_msg :=
                    ("Facebook API Error " ++ py_str py_repr code ++ ": "
                     ++ py_str py_repr message)%string in
                  match py_contains "error_subcode" error_detail with
                  | Return true =>
                      match py_getitem error_detail "error_subcode" with
                      | Return sub =>
                          (error_msg ++ " (Subcode: "
                           ++ py_str py_repr sub ++ ")")%string
                      | _ => error_msg
                      end
                  | _ => error_msg
                  end
              | _, _ => error_msg
              end
          | _ => error_msg
          end
      | _ => error_msg
      end
  end.

Definition _make_request (self : FacebookAdsClient) (endpoint : string)
    (params : option dict) : M json :=
  let url := (base_url self ++ endpoint)%string in
  let request_params := match params with Some p => p | None => [] end in
  let request_params :=
    Dict.set "access_token" (JStr (_access_token self)) request_params in
  bind (http_get (Request url request_params 30)) (fun o =>
  match o with
  | Failed detail => lift (Raise (TransportFailure detail))
  | Responded r =>
      match raise_for_status r with
      | None =>
          match json_body r with
          | Some j => ret j
          | None => lift (Raise JSONDecodeError)
          end
      | Some e => lift (Raise (RequestException (format_error e r)))
      end
  end).

(** [all_data.extend(response.get('data', []))]. *)
Definition extend_data (all_data : list json) (resp : json)
    : result (list json) :=
  rbind (py_get resp "data" (JArr [])) (fun data =>
  rbind (py_iter data) (fun rows =>
  Return (all_data ++ rows))).

(** ['paging' in response and 'next' in response['paging']]. *)
Definition has_next (resp : json) : result bool :=
  rbind (py_contains "paging" resp) (fun has_paging =>
  if has_paging then
    rbind (py_getitem resp "paging") (fun paging =>
    py_contains "next" paging)
  else Return false).

(** The first three lines of the loop body. *)
Definition next_params (resp : json) : result dict :=
  rbind (py_getitem resp "paging") (fun paging =>
  rbind (py_getitem paging "next") (fun next_url =>
  rbind (urlparse_query next_url) (fun query =>
  Return (Dict.of_pairs (parse_qsl query))))).

(** The [while] loop; [fuel] bounds the number of times its condition is
    evaluated. *)
Fixpoint follow_pages (fuel : nat) (self : FacebookAdsClient)
    (endpoint : string) (resp : json) (all_data : list json)
    : M (list json) :=
  match fuel with
  | O => lift Diverged
  | S fuel' =>
      bind (lift (has_next resp)) (fun more =>
      if more : bool then
        bind (lift (next_params resp)) (fun p =>
        bind (_make_request self endpoint (Some p)) (fun resp' =>
        bind (lift (extend_data all_data resp')) (fun all_data' =>
        follow_pages fuel' self endpoint resp' all_data')))
      else ret all_data)
  end.

Definition _make_paginated_request (fuel : nat) (self : FacebookAdsClient)
    (endpoint : string) (params : option dict) : M json :=
  bind (_make_request self endpoint params) (fun resp =>
  bind (lift (extend_data [] resp)) (fun all_data =>
  bind (follow_pages fuel self endpoint resp all_data) (fun all_data' =>
  ret (JObj [("data", JArr all_data')])))).

(** The parameters shared by the three entity listings. *)
Definition listing_params (fields : string)
    (effective_status : option (list string)) (limit : Z) : dict :=
  let params := [("fields", JStr fields); ("limit", JInt limit)] in
  match effective_status with
  | Some (s :: l) =>
      Dict.set "effective_status"
        (JStr (json_dumps (JArr (map JStr (s :: l))))) params
  | _ => params
  end.

Definition get_ad_accounts (fuel : nat) (self : FacebookAdsClient) : M json :=
  _make_paginated_request fuel self "/me/adaccounts"
    (Some [("fields",
            JStr "id,name,account_id,currency,timezone_name,account_status,business")]).

Definition get_campaigns (fuel : nat) (self : FacebookAdsClient)
    (account_id : string) (effective_status : option (list string))
    (limit : Z) : M json :=
  let account_id := act_prefixed account_id in
  let params :=
    listing_params
      "id,name,status,effective_status,objective,daily_budget,lifetime_budget,created_time,updated_time"
      effective_status limit in
  _make_paginated_request fuel self ("/" ++ account_id ++ "/campaigns")%string
    (Some params).

Definition get_ad_sets (fuel : nat) (self : FacebookAdsClient)
    (account_id : string) (effective_status : option (list string))
    (limit : Z) : M json :=
  let account_id := act_prefixed account_id in
  let params :=
    listing_params
      "id,name,status,effective_status,daily_budget,lifetime_budget,targeting,created_time,updated_time"
      effective_status limit in
  _make_paginated_request fuel self ("/" ++ account_id ++ "/adsets")%string
    (Some params).

Definition get_ads (fuel : nat) (self : FacebookAdsClient)
    (account_id : string) (effective_status : option (list string))
    (limit : Z) : M json :=
  let account_id := act_prefixed account_id in
  let params :=
    listing_params
      "id,name,status,effective_status,creative{id,title,body,image_url},created_time,updated_time"
      effective_status limit in
  _make_paginated_request fuel self ("/" ++ account_id ++ "/ads")%string
    (Some params).

(** The arguments of [get_account_insights] after the account id. *)
Record insights_query : Type := InsightsQuery {
  start_date : string;
  end_date : string;
  fields : list string;
  level : string;
  breakdowns : option (list string);
  time_increment : option string;
  campaign_ids : option (list string);
  adset_ids : option (list string);
  ad_ids : option (list string)
}.

Definition id_filter (field : string) (ids : option (list string))
    : list json :=
  match ids with
  | Some (i :: l) =>
      [JObj [("field", JStr field); ("operator", JStr "IN");
             ("value", JArr (map JStr (i :: l)))]]
  | _ => []
  end.

Definition insights_params (q : insights_query) (limit : Z) : dict :=
  let params :=
    [("fields", JStr (String.concat "," (fields q)));
     ("level", JStr (level q));
     ("time_range",
      JStr (json_dumps (JObj [("since", JStr (start_date q));
                              ("until", JStr (end_date q))])));
     ("limit", JInt limit)] in
  let params :=
    match breakdowns q with
    | Some (b :: l) =>
        Dict.set "breakdowns" (JStr (String.concat "," (b :: l))) params
    | _ => params
    end in
  let params :=
    match time_increment q with
    | Some (String c t) =>
        Dict.set "time_increment" (JStr (String c t)) params
    | _ => params
    end in
  let filtering :=
    id_filter "campaign.id" (campaign_ids q)
    ++ id_filter "adset.id" (adset_ids q)
    ++ id_filter "ad.id" (ad_ids q) in
  match filtering with
  | [] => params
  | _ => Dict.set "filtering" (JStr (json_dumps (JArr filtering))) params
  end.

Definition get_account_insights (fuel : nat) (self : FacebookAdsClient)
    (account_id : string) (q : insights_query) (limit : Z) : M json :=
  let account_id := act_prefixed account_id in
  _make_paginated_request fuel self ("/" ++ account_id ++ "/insights")%string
    (Some (insights_params q limit)).

End WithTransport.

Arguments State {World} world exchanges.
Arguments world {World} s.
Arguments exchanges {World} s.
Arguments ret {World A} a _.
Arguments bind {World A B} m k _.
Arguments lift {World A} r _.

End facebook_client.

(** ** server.py *)

Module server.

Import facebook_client.

Section Tools.

Variable World : Type.
Variable requests_get : request -> World -> get_outcome * World.
Variable urlparse_query : json -> result string.
Variable parse_qsl : string -> list (string * string).
Variable py_repr : json -> string.
Variable json_dumps : json -> string.

(** [os.getenv('FACEBOOK_ACCESS_TOKEN')]. *)
Variable env_token : option string.

(** The two methods of [data_processor.FacebookDataProcessor] the insights
    tool calls; the module is outside this development's sources. *)
Variable process_insights : json -> result json.
Variable convert_numeric_fields : json -> result json.

Let M := M World.

Definition _get_client : result FacebookAdsClient :=
  new_client env_token None default_api_version.

Definition status_list (status_filter : option string)
    : option (list string) :=
  match status_filter with
  | Some (String c s) => Some [String c s]
  | _ => None
  end.

Definition list_ad_accounts (fuel : nat) : M json :=
  bind (lift _get_client) (fun client =>
  bind (get_ad_accounts World requests_get urlparse_query parse_qsl py_repr
          fuel client) (fun resp =>
  lift (py_get resp "data" (JArr [])))).

Definition list_campaigns (fuel : nat) (account_id : string)
    (status_filter : option string) : M json :=
  bind (lift _get_client) (fun client =>
  bind (get_campaigns World requests_get urlparse_query parse_qsl py_repr
          json_dumps fuel client account_id (status_list status_filter) 100)
       (fun resp =>
  lift (py_get resp "data" (JArr [])))).

Definition list_ad_sets (fuel : nat) (account_id : string)
    (status_filter : option string) : M json :=
  bind (lift _get_client) (fun client =>
  bind (get_ad_sets World requests_get urlparse_query parse_qsl py_repr
          json_dumps fuel client account_id (status_list status_filter) 100)
       (fun resp =>
  lift (py_get resp "data" (JArr [])))).

Definition list_ads (fuel : nat) (account_id : string)
    (status_filter : option string) : M json :=
  bind (lift _get_client) (fun client =>
  bind (get_ads World requests_get urlparse_query parse_qsl py_repr
          json_dumps fuel client account_id (status_list status_filter) 100)
       (fun resp =>
  lift (py_get resp "data" (JArr [])))).

Definition get_account_insights (fuel : nat) (account_id : string)
    (q : insights_query) (flatten_actions : bool) : M json :=
  bind (lift _get_client) (fun client =>
  bind (facebook_client.get_account_insights World requests_get
          urlparse_query parse_qsl py_repr json_dumps fuel client account_id
          q 100) (fun resp =>
  if flatten_actions then
    lift (rbind (process_insights resp) convert_numeric_fields)
  else
    lift (py_get resp "data" (JArr [])))).

Definition get_campaign_insights (fuel : nat) (account_id : string)
    (start_date end_date : string) (fields : list string)
    (time_increment : option string) (flatten_actions : bool) : M json :=
  get_account_insights fuel account_id
    (InsightsQuery start_date end_date fields "campaign" None time_increment
       None None None)
    flatten_actions.

End Tools.

End server.

(** ** data_processor.py *)

Module data_processor.

(** Modelled from the spec: [data_processor.py] (the class
    [FacebookDataProcessor]) is missing from the sources.  This is the
    lookup table of section 4.2 and section 9: each action-bearing key
    with the prefix of the flat keys made from it. *)
Definition action_prefixes : list (string * string) :=
  [("actions", "action_");
   ("action_values", "action_value_");
   ("conversions", "conversion_")].

Definition is_action_key (k : string) : bool :=
  existsb (fun kp => String.eqb k (fst kp)) action_prefixes.

(** Modelled from the spec: an ActionEntry read from a nested list; an
    entry without a textual [action_type] or without a [value] is
    malformed. *)
Definition action_entry (e : json) : option (string * json) :=
  match e with
  | JObj d =>
      match Dict.get "action_type" d, Dict.get "value" d with
      | Some (JStr t), Some v => Some (t, v)
      | _, _ => None
      end
  | _ => None
  end.

Definition entries_of (v : json) : list json :=
  match v with
  | JArr l => l
  | _ => []
  end.

(** Modelled from the spec: a malformed entry, "missing [action_type] or
    [value]". *)
Definition missing_field (e : json) : Prop :=
  exists d,
    e = JObj d
    /\ (Dict.get "action_type" d = None \/ Dict.get "value" d = None).

Section Flatten.

(** The spec's "sanitized to be a valid flat field name": it says no more
    about the function. *)
Variable sanitize : string -> string.

(** Modelled from the spec: the flat fields one nested value yields,
    malformed entries skipped. *)
Definition flat_fields (prefix : string) (v : json) : dict :=
  flat_map
    (fun e =>
       match action_entry e with
       | Some (t, x) => [((prefix ++ sanitize t)%string, x)]
       | None => []
       end)
    (entries_of v).

(** Modelled from the spec: every flat field of a Record, in table order
    then entry order. *)
Definition synthesized (row : dict) : dict :=
  flat_map
    (fun kp =>
       match Dict.get (fst kp) row with
       | Some v => flat_fields (snd kp) v
       | None => []
       end)
    action_prefixes.

Definition pass_through (row : dict) : dict :=
  filter (fun kv => negb (is_action_key (fst kv))) row.

(** Modelled from the spec: the [flatten_actions] transform on one Record:
    the nested keys are removed, the other keys are kept, and each flat
    key is set to its entry's value. *)
Definition flatten_record (row : dict) : dict :=
  Dict.update (pass_through row) (synthesized row).

(** Modelled from the spec: [flatten_actions(rows)]. *)
Definition flatten_actions (rows : list dict) : list dict :=
  map flatten_record rows.

End Flatten.

(** *** Numeric conversion *)

Inductive number : Type :=
| NInt (z : Z)
| NFloat (d : decimal).

Definition json_of_number (n : number) : json :=
  match n with
  | NInt z => JInt z
  | NFloat d => JFloat d
  end.

Definition digit_of (c : ascii) : option Z :=
  let n := nat_of_ascii c in
  if ((48 <=? n) && (n <=? 57))%nat then Some (Z.of_nat n - 48) else None.

(** The longest prefix of digits, most significant first, and the rest. *)
Fixpoint take_digits (l : list ascii) : list Z * list ascii :=
  match l with
  | [] => ([], [])
  | c :: l' =>
      match digit_of c with
      | Some d => let (ds, rest) := take_digits l' in (d :: ds, rest)
      | None => ([], l)
      end
  end.

Definition take_sign (l : list ascii) : bool * list ascii :=
  match l with
  | "-"%char :: l' => (true, l')
  | "+"%char :: l' => (false, l')
  | _ => (false, l)
  end.

Definition Z_of_digits (ds : list Z) : Z :=
  fold_left (fun acc d => 10 * acc + d) ds 0.

Definition signed (negative : bool) (z : Z) : Z :=
  if negative then - z else z.

Fixpoint drop_zeros (rev_digits : list Z) : list Z * Z :=
  match rev_digits with
  | 0 :: l => let (ds, n) := drop_zeros l in (ds, n + 1)
  | _ => (rev_digits, 0)
  end.

(** The decimal [ds * 10 ^ e] with the trailing zeros of [ds] moved into the
    exponent; zero is [0 * 10 ^ 0]. *)
Definition normal_decimal (negative : bool) (ds : list Z) (e : Z) : decimal :=
  let (rev_ds, shift) := drop_zeros (rev ds) in
  match rev_ds with
  | [] => Decimal 0 0
  | _ => Decimal (signed negative (Z_of_digits (rev rev_ds))) (e + shift)
  end.

(** Modelled from the spec: the text of an exponent, [e] or [E], an
    optional sign and at least one digit, up to the end of the text. *)
Definition take_exponent (l : list ascii) : option Z :=
  match l with
  | c :: l' =>
      if (Ascii.eqb c "e" || Ascii.eqb c "E")%bool then
        let (neg, l1) := take_sign l' in
        match take_digits l1 with
        | (d :: ds, []) => Some (signed neg (Z_of_digits (d :: ds)))
        | _ => None
        end
      else None
  | [] => None
  end.

(** Modelled from the spec: "lexically represents a number (integer or
    decimal, optionally with a sign)"; an integer "when the text has no
    fractional part and no exponent", a float otherwise. *)
Definition parse_number (s : string) : option number :=
  let (neg, l) := take_sign (list_ascii_of_string s) in
  match take_digits l with
  | ([], _) => None
  | (ip, []) => Some (NInt (signed neg (Z_of_digits ip)))
  | (ip, "."%char :: l1) =>
      match take_digits l1 with
      | ([], _) => None
      | (fp, []) =>
          Some (NFloat (normal_decimal neg (ip ++ fp) (- Z.of_nat (List.length fp))))
      | (fp, l2) =>
          match take_exponent l2 with
          | Some e =>
              Some (NFloat
                (normal_decimal neg (ip ++ fp) (e - Z.of_nat (List.length fp))))
          | None => None
          end
      end
  | (ip, l1) =>
      match take_exponent l1 with
      | Some e => Some (NFloat (normal_decimal neg ip e))
      | None => None
      end
  end.

(** Modelled from the spec: a textual value that reads as a number becomes
    that number; every other value is left as it is. *)
Definition convert_value (v : json) : json :=
  match v with
  | JStr s =>
      match parse_number s with
      | Some n => json_of_number n
      | None => v
      end
  | _ => v
  end.

Definition convert_record (row : dict) : dict :=
  map (fun kv => (fst kv, convert_value (snd kv))) row.

(** Modelled from the spec: [convert_numeric_fields(rows)]. *)
Definition convert_numeric_fields (rows : list dict) : list dict :=
  map convert_record rows.

End data_processor.

(** Modelled from the spec: the two transforms at the types the insights
    tool calls them with.  [process_insights] takes the pager's response and
    flattens its rows; a row that is not a Record is left as it is. *)
Module processor.

Import data_processor.

Definition on_record (f : dict -> dict) (row : json) : json :=
  match row with
  | JObj d => JObj (f d)
  | _ => row
  end.

Definition process_insights (sanitize : string -> string) (resp : json)
    : result json :=
  rbind (py_get resp "data" (JArr [])) (fun data =>
  Return (JArr (map (on_record (flatten_record sanitize)) (entries_of data)))).

Definition convert_numeric_fields (rows : json) : result json :=
  Return (JArr (map (on_record convert_record) (entries_of rows))).

(** A sanitiser: every character that is not a letter, a digit or an
    underscore becomes an underscore. *)
Definition is_name_char (c : ascii) : bool :=
  let n := nat_of_ascii c in
  (((48 <=? n) && (n <=? 57)) || ((65 <=? n) && (n <=? 90))
   || ((97 <=? n) && (n <=? 122)) || (n =? 95))%nat.

Fixpoint underscore_sanitize (s : string) : string :=
  match s with
  | EmptyString => EmptyString
  | String c s' =>
      String (if is_name_char c then c else "_"%char) (underscore_sanitize s')
  end.

End processor.

(** ** A simulated upstream

    A stateless server holding named pages: a request without an [after]
    parameter gets the first page, a request with [after=c] the page named
    [c].  With it come a URL parser and a query parser for the URLs it
    hands out. *)

Module simulated.

Import facebook_client.

Fixpoint split_at (c : ascii) (s : string) : string * option string :=
  match s with
  | EmptyString => (EmptyString, None)
  | String a s' =>
      if Ascii.eqb a c then (EmptyString, Some s')
      else let (h, t) := split_at c s' in (String a h, t)
  end.

Fixpoint split_all (c : ascii) (s : string) : list string :=
  match s with
  | EmptyString => [EmptyString]
  | String a s' =>
      let l := split_all c s' in
      if Ascii.eqb a c then EmptyString :: l
      else
        match l with
        | h :: t => String a h :: t
        | [] => [String a EmptyString]
        end
  end.

Definition urlparse_query (v : json) : result string :=
  match v with
  | JStr u =>
      match snd (split_at "?" u) with
      | Some q => Return q
      | None => Return EmptyString
      end
  | _ => Raise AttributeError
  end.

Definition parse_qsl (q : string) : list (string * string) :=
  flat_map
    (fun kv =>
       match split_at "=" kv with
       | (k, Some v) => [(k, v)]
       | (_, None) => []
       end)
    (split_all "&" q).

Definition py_repr (v : json) : string := "<repr>".
Definition json_dumps (v : json) : string := "<json>".

Fixpoint find_page (c : string) (pages : list (string * response))
    : option response :=
  match pages with
  | [] => None
  | (c', r) :: pages' => if String.eqb c c' then Some r else find_page c pages'
  end.

Definition serve (pages : list (string * response)) (rq : request) (w : unit)
    : get_outcome * unit :=
  let found :=
    match Dict.get "after" (req_params rq) with
    | Some (JStr c) => find_page c pages
    | _ => option_map snd (hd_error pages)
    end in
  match found with
  | Some r => (Responded r, w)
  | None => (Failed "connection reset", w)
  end.

Definition next_link (cursor : string) : string :=
  ("https://graph.facebook.com/v24.0/act_1/insights?access_token=T&after="
   ++ cursor)%string.

Definition reason_of (status : Z) : string :=
  if status =? 200 then "OK"
  else if status =? 300 then "Multiple Choices"
  else if status =? 400 then "Bad Request"
  else "Internal Server Error".

Definition insights_url : string :=
  "https://graph.facebook.com/v24.0/act_1/insights".

(** A page: its rows under [data] when it has any, and the link to the page
    named [next] when there is one. *)
Definition page_body (rows : option (list json)) (next : option string)
    : dict :=
  match rows with
  | Some l => [("data", JArr l)]
  | None => []
  end
  ++ match next with
     | Some c => [("paging", JObj [("next", JStr (next_link c))])]
     | None => [("paging", JObj [("cursors", JObj [])])]
     end.

Definition page (status : Z) (rows : option (list json))
    (next : option string) : response :=
  Response status (reason_of status) insights_url
    (Some (JObj (page_body rows next))).

Definition row (id : string) : json := JObj [("id", JStr id)].

(** Three pages; the second is served with status [status2] and the rows
    [rows2]. *)
Definition three_pages (status2 : Z) (rows2 : option (list json))
    : list (string * response) :=
  [("p1", page 200 (Some [row "a"; row "b"]) (Some "p2"));
   ("p2", page status2 rows2 (Some "p3"));
   ("p3", page 200 (Some [row "d"; row "e"]) None)].

(** One page of insights, with a nested action list. *)
Definition purchase : json :=
  JObj [("action_type", JStr "purchase"); ("value", JStr "5")].

Definition insights_row : json :=
  JObj [("spend", JStr "12.50"); ("impressions", JStr "42");
        ("actions", JArr [purchase])].

Definition insights_page : list (string * response) :=
  [("p1", page 200 (Some [insights_row]) None)].

(** The answer to a request with an expired token, and answers with a status
    that is neither a success nor an error. *)
Definition oauth_error : json :=
  JObj [("error",
         JObj [("message", JStr "Invalid OAuth access token.");
               ("type", JStr "OAuthException");
               ("code", JInt 190);
               ("error_subcode", JInt 460)])].

Definition refusal (status : Z) (body : option json)
    : list (string * response) :=
  [("p1", Response status (reason_of status) insights_url body)].

Definition client : FacebookAdsClient :=
  Client "v24.0" "https://graph.facebook.com/v24.0" "T".

Definition fetch (pages : list (string * response)) (fuel : nat)
    (endpoint : string) (params : option dict)
    : result json * state unit :=
  _make_paginated_request unit (serve pages) urlparse_query parse_qsl py_repr
    fuel client endpoint params (State tt []).

Definition get (pages : list (string * response)) (endpoint : string)
    (params : option dict) : result json * state unit :=
  _make_request unit (serve pages) py_repr client endpoint params
    (State tt []).

Definition failing_run : result json * state unit :=
  fetch (three_pages 500 (Some [row "c"])) 3 "/act_1/insights" None.

Definition query : insights_query :=
  InsightsQuery "2025-01-01" "2025-01-31" ["spend"; "impressions"; "actions"]
    "account" None None None None None.

Definition insights_tool (flatten_actions : bool)
    : result json * state unit :=
  server.get_account_insights unit (serve insights_page) urlparse_query
    parse_qsl py_repr json_dumps (Some "T")
    (processor.process_insights processor.underscore_sanitize)
    processor.convert_numeric_fields 1 "1" query flatten_actions
    (State tt []).

End simulated.

(** ** Upstreams that serve a chain of pages *)

Module upstream.

Import facebook_client.

Definition served (r : response) : Prop := 200 <= status_code r < 300.

(** The [next] entry of a page's pagination descriptor. *)
Definition next_of (body : dict) : option json :=
  match Dict.get "paging" body with
  | Some (JObj paging) => Dict.get "next" paging
  | _ => None
  end.

(** A page without a pagination descriptor, or whose descriptor has no
    [next]. *)
Definition last_page (body : dict) : Prop :=
  Dict.get "paging" body = None
  \/ exists paging,
       Dict.get "paging" body = Some (JObj paging)
       /\ Dict.get "next" paging = None.

(** The rows a page carries under [data]. *)
Definition rows_of (body : dict) : list json :=
  match Dict.get "data" body with
  | Some (JArr rows) => rows
  | _ => []
  end.

Definition carries_rows (body : dict) : Prop :=
  exists rows, Dict.get "data" body = Some (JArr rows).

(** A page's [data] is a list, or the page has no [data]. *)
Definition mergeable (body : dict) : Prop :=
  Dict.get "data" body = None \/ carries_rows body.

(** [params or {}]. *)
Definition params_or_empty (params : option dict) : dict :=
  match params with
  | Some p => p
  | None => []
  end.

Section Crawl.

Variable World : Type.
Variable requests_get : request -> World -> get_outcome * World.
Variable urlparse_query : json -> result string.
Variable parse_qsl : string -> list (string * string).

Variable self : FacebookAdsClient.
Variable endpoint : string.

(** The GET [_make_request] issues for the parameters [params]. *)
Definition request_for (params : dict) : request :=
  Request (base_url self ++ endpoint)%string
    (Dict.set "access_token" (JStr (_access_token self)) params) 30.

(** [crawl w rq pages w' xs]: from the world [w], the request [rq] is
    answered with the first of [pages]; each page but the last names, by
    its [next] URL, the request answered with the page after it; [xs] are
    the exchanges in order and [w'] is the world after the last one. *)
Inductive crawl
  : World -> request -> list dict -> World ->
    list (request * get_outcome) -> Prop :=
| crawl_last (w w' : World) (rq : request) (r : response) (body : dict) :
    requests_get rq w = (Responded r, w') ->
    served r ->
    json_body r = Some (JObj body) ->
    last_page body ->
    crawl w rq [body] w' [(rq, Responded r)]
| crawl_next (w w1 w' : World) (rq : request) (r : response) (body : dict)
    (u q : string) (pages : list dict) (xs : list (request * get_outcome)) :
    requests_get rq w = (Responded r, w1) ->
    served r ->
    json_body r = Some (JObj body) ->
    next_of body = Some (JStr u) ->
    urlparse_query (JStr u) = Return q ->
    crawl w1 (request_for (Dict.of_pairs (parse_qsl q))) pages w' xs ->
    crawl w rq (body :: pages) w' ((rq, Responded r) :: xs).

End Crawl.

Section Refusal.

Variable World : Type.
Variable py_repr : json -> string.

(** The outcome of a run refused by the upstream with the response [r]. *)
Definition refused_with (A : Type) (r : response) (res : result A) : Prop :=
  exists e,
    raise_for_status r = Some e
    /\ res = Raise (RequestException (format_error py_repr e r)).

(** A run never goes on after a 4xx or 5xx response: the exchanges it adds
    are listed, and if one of them got such a response the run raised the
    error made from it. *)
Definition aborts_on_error (A : Type) (st : state World)
    (out : result A * state World) : Prop :=
  exists new,
    exchanges (snd out) = exchanges st ++ new
    /\ forall rq r,
         In (rq, Responded r) new ->
         400 <= status_code r < 600 ->
         refused_with A r (fst out).

End Refusal.

End upstream.

(** ** Runs of the client *)

Module runs.

Import facebook_client upstream.

(** The exception the outcome of a GET makes [_make_request] raise, if it
    makes it raise one. *)
Definition exchange_error (py_repr : json -> string) (o : get_outcome)
    : option exn :=
  match o with
  | Failed detail => Some (TransportFailure detail)
  | Responded r =>
      match raise_for_status r with
      | Some e => Some (RequestException (format_error py_repr e r))
      | None =>
          match json_body r with
          | Some _ => None
          | None => Some JSONDecodeError
          end
      end
  end.

(** The exchanges [new] of a run with the outcome [res]: GETs that went
    well, then at most one that did not, whose exception is the outcome. *)
Definition stops_at_failure (py_repr : json -> string) (A : Type)
    (new : list (request * get_outcome)) (res : result A) : Prop :=
  exists good tail,
    new = good ++ tail
    /\ Forall (fun x => exchange_error py_repr (snd x) = None) good
    /\ (tail = []
        \/ exists rq o x,
             tail = [(rq, o)]
             /\ exchange_error py_repr o = Some x
             /\ res = Raise x).

(** The value of the last pair of [l] with the key [k]. *)
Definition last_value (k : string) (l : list (string * string))
    : option string :=
  option_map snd (find (fun kv => String.eqb k (fst kv)) (rev l)).

(** What Python's truth test makes of an optional list or string: an empty
    one counts as a missing one. *)
Definition absent_if_empty (o : option (list string)) : option (list string) :=
  match o with
  | Some [] => None
  | _ => o
  end.

Definition absent_if_blank (o : option string) : option string :=
  match o with
  | Some EmptyString => None
  | _ => o
  end.

Definition without_blanks (q : insights_query) : insights_query :=
  InsightsQuery (start_date q) (end_date q) (fields q) (level q)
    (absent_if_empty (breakdowns q)) (absent_if_blank (time_increment q))
    (absent_if_empty (campaign_ids q)) (absent_if_empty (adset_ids q))
    (absent_if_empty (ad_ids q)).

Definition any_ids (q : insights_query) : bool :=
  match absent_if_empty (campaign_ids q), absent_if_empty (adset_ids q),
        absent_if_empty (ad_ids q) with
  | None, None, None => false
  | _, _, _ => true
  end.

(** A value [list.extend] cannot iterate over. *)
Definition not_iterable (v : json) : Prop :=
  match v with
  | JNull | JBool _ | JInt _ | JFloat _ => True
  | _ => False
  end.

Definition is_object (v : json) : Prop :=
  match v with
  | JObj _ => True
  | _ => False
  end.

(** What every GET of a client on an endpoint has: the URL, the client's
    token, the timeout. *)
Definition authenticated (self : FacebookAdsClient) (endpoint : string)
    (rq : request) : Prop :=
  req_url rq = (base_url self ++ endpoint)%string
  /\ Dict.get "access_token" (req_params rq) = Some (JStr (_access_token self))
  /\ req_timeout rq = 30.

Section Reach.

Variable World : Type.
Variable requests_get : request -> World -> get_outcome * World.
Variable urlparse_query : json -> result string.
Variable parse_qsl : string -> list (string * string).

Variable self : FacebookAdsClient.
Variable endpoint : string.

(** [reaches w rq pages w' xs final]: from the world [w], the request [rq]
    is answered with the first of [pages], each of [pages] names by its
    [next] URL the request answered with the page after it, and the last
    of them names the request answered with the page [final], about whose
    pagination descriptor nothing is said; [xs] are the exchanges in
    order, that of [final] included. *)
Inductive reaches
  : World -> request -> list dict -> World ->
    list (request * get_outcome) -> dict -> Prop :=
| reaches_here (w w' : World) (rq : request) (r : response) (final : dict) :
    requests_get rq w = (Responded r, w') ->
    served r ->
    json_body r = Some (JObj final) ->
    reaches w rq [] w' [(rq, Responded r)] final
| reaches_next (w w1 w' : World) (rq : request) (r : response) (body : dict)
    (u q : string) (pages : list dict) (xs : list (request * get_outcome))
    (final : dict) :
    requests_get rq w = (Responded r, w1) ->
    served r ->
    json_body r = Some (JObj body) ->
    next_of body = Some (JStr u) ->
    urlparse_query (JStr u) = Return q ->
    reaches w1 (request_for self endpoint (Dict.of_pairs (parse_qsl q)))
      pages w' xs final ->
    reaches w rq (body :: pages) w' ((rq, Responded r) :: xs) final.

End Reach.

Section Logs.

Variable World : Type.

(** The exchanges a run adds all satisfy [P]. *)
Definition adds_only (P : request * get_outcome -> Prop) (A : Type)
    (st : state World) (out : result A * state World) : Prop :=
  exists new, exchanges (snd out) = exchanges st ++ new /\ Forall P new.

(** The exchanges a run adds stop at the first failure. *)
Definition stops (py_repr : json -> string) (A : Type) (st : state World)
    (out : result A * state World) : Prop :=
  exists new,
    exchanges (snd out) = exchanges st ++ new
    /\ stops_at_failure py_repr A new (fst out).

End Logs.

End runs.

(** ** More simulated upstreams *)

Module samples.

Import facebook_client simulated.

(** An upstream whose every answer is a page naming a next page. *)
Definition endless (rq : request) (w : unit) : get_outcome * unit :=
  (Responded (page 200 (Some [row "a"]) (Some "p1")), w).

(** An upstream whose first page names a page it does not hold: the GET of
    that page fails on the network. *)
Definition broken_link : list (string * response) :=
  [("p1", page 200 (Some [row "a"; row "b"]) (Some "p9"))].

(** A first page with the given body and status 200. *)
Definition only (body : json) : list (string * response) :=
  refusal 200 (Some body).

Definition run (pages : list (string * response)) (fuel : nat)
    : result json * state unit :=
  fetch pages fuel "/act_1/insights" None.

(** Three pages, the third with a null pagination descriptor. *)
Definition null_paging : dict :=
  [("data", JArr [row "d"]); ("paging", JNull)].

Definition null_paging_third : list (string * response) :=
  [("p1", page 200 (Some [row "a"; row "b"]) (Some "p2"));
   ("p2", page 200 (Some [row "c"]) (Some "p3"));
   ("p3", Response 200 "OK" insights_url (Some (JObj null_paging)))].

End samples.

(** ** Decimal digits *)

Module digits.

(** The digits of a decimal numeral, most significant first. *)
Fixpoint digits_of_uint (d : Decimal.uint) : list Z :=
  match d with
  | Decimal.Nil => []
  | Decimal.D0 l => 0 :: digits_of_uint l
  | Decimal.D1 l => 1 :: digits_of_uint l
  | Decimal.D2 l => 2 :: digits_of_uint l
  | Decimal.D3 l => 3 :: digits_of_uint l
  | Decimal.D4 l => 4 :: digits_of_uint l
  | Decimal.D5 l => 5 :: digits_of_uint l
  | Decimal.D6 l => 6 :: digits_of_uint l
  | Decimal.D7 l => 7 :: digits_of_uint l
  | Decimal.D8 l => 8 :: digits_of_uint l
  | Decimal.D9 l => 9 :: digits_of_uint l
  end.

End digits.

(** * Properties *)

(** ** Dictionaries *)

Module DictFacts.

Lemma get_set_same (k : string) (v : json) (d : dict) :
  Dict.get k (Dict.set k v d) = Some v.
Proof.
  induction d as [|[k' v'] d IH]; simpl.
  - now rewrite String.eqb_refl.
  - destruct (String.eqb k k') eqn:E; simpl; rewrite ?String.eqb_refl, ?E; auto.
Qed.

Lemma get_set_other (k k' : string) (v : json) (d : dict) :
  k <> k' -> Dict.get k (Dict.set k' v d) = Dict.get k d.
Proof.
  intros Hne. induction d as [|[k0 v0] d IH]; simpl.
  - apply String.eqb_neq in Hne. now rewrite Hne.
  - destruct (String.eqb k' k0) eqn:E; simpl.
    + apply String.eqb_eq in E. subst k0.
      apply String.eqb_neq in Hne. now rewrite Hne.
    + now rewrite IH.
Qed.

Lemma get_update_absent (k : string) (other d : dict) :
  ~ In k (Dict.keys other) ->
  Dict.get k (Dict.update d other) = Dict.get k d.
Proof.
  unfold Dict.update. revert d.
  induction other as [|[k' v'] other IH]; intros d Hnot; simpl in *.
  - reflexivity.
  - rewrite IH by tauto. apply get_set_other. intros ->. tauto.
Qed.

Lemma get_filter_key (keep : string -> bool) (k : string) (d : dict) :
  Dict.get k (filter (fun kv => keep (fst kv)) d)
  = if keep k then Dict.get k d else None.
Proof.
  induction d as [|[k' v'] d IH]; simpl.
  - now destruct (keep k).
  - destruct (keep k') eqn:Ek'; simpl.
    + destruct (String.eqb k k') eqn:E.
      * apply String.eqb_eq in E. subst k'. now rewrite Ek'.
      * exact IH.
    + rewrite IH. destruct (String.eqb k k') eqn:E; auto.
      apply String.eqb_eq in E. subst k'. now rewrite Ek'.
Qed.

End DictFacts.

(** ** The pager *)

Section PagerFacts.

Import facebook_client upstream.

Variable World : Type.
Variable requests_get : request -> World -> get_outcome * World.
Variable urlparse_query : json -> result string.
Variable parse_qsl : string -> list (string * string).
Variable py_repr : json -> string.

Variable self : FacebookAdsClient.
Variable endpoint : string.

Local Abbreviation make_request := (_make_request World requests_get py_repr self endpoint).
Local Abbreviation follow :=
  (follow_pages World requests_get urlparse_query parse_qsl py_repr).
Local Abbreviation paginated :=
  (_make_paginated_request World requests_get urlparse_query parse_qsl
     py_repr).
Local Abbreviation rq_for := (request_for self endpoint).
Local Abbreviation aborts := (aborts_on_error World py_repr).
Local Abbreviation crawls := (crawl World requests_get urlparse_query parse_qsl self endpoint).

Lemma raise_for_status_none (r : response) :
  ~ 400 <= status_code r < 600 -> raise_for_status r = None.
Proof.
  intros H. unfold raise_for_status.
  destruct (400 <=? status_code r) eqn:E1;
    destruct (status_code r <? 500) eqn:E2;
    destruct (500 <=? status_code r) eqn:E3;
    destruct (status_code r <? 600) eqn:E4; simpl; try reflexivity;
    exfalso; apply H; lia.
Qed.

Lemma raise_for_status_some (r : response) :
  400 <= status_code r < 600 -> exists e, raise_for_status r = Some e.
Proof.
  intros H. unfold raise_for_status.
  destruct (400 <=? status_code r) eqn:E1;
    destruct (status_code r <? 500) eqn:E2;
    destruct (500 <=? status_code r) eqn:E3;
    destruct (status_code r <? 600) eqn:E4; simpl; eauto; lia.
Qed.

(** What one call of [_make_request] does, by the outcome of its GET. *)
Lemma make_request_run (params : option dict) (st : state World) :
  let rq := rq_for (params_or_empty params) in
  let o := fst (requests_get rq (world st)) in
  let st' :=
    State (snd (requests_get rq (world st))) (exchanges st ++ [(rq, o)]) in
  make_request params st =
  (match o with
   | Failed detail => Raise (TransportFailure detail)
   | Responded r =>
       match raise_for_status r with
       | Some e => Raise (RequestException (format_error py_repr e r))
       | None =>
           match json_body r with
           | Some j => Return j
           | None => Raise JSONDecodeError
           end
       end
   end, st').
Proof.
  unfold _make_request, bind, http_get, request_for, params_or_empty.
  destruct params as [p|];
    destruct (requests_get _ (world st)) as [[r|detail] w]; simpl;
    try reflexivity;
    destruct (raise_for_status r); try reflexivity;
    destruct (json_body r); reflexivity.
Qed.

Lemma make_request_served (params : option dict) (w w' : World)
    (xs : list (request * get_outcome)) (r : response) (j : json) :
  requests_get (rq_for (params_or_empty params)) w = (Responded r, w') ->
  served r ->
  json_body r = Some j ->
  make_request params (State w xs)
  = (Return j,
     State w' (xs ++ [(rq_for (params_or_empty params), Responded r)])).
Proof.
  intros Hget Hs Hj. rewrite make_request_run. simpl. rewrite Hget. simpl.
  rewrite raise_for_status_none by (unfold served in Hs; lia).
  now rewrite Hj.
Qed.

Lemma has_next_last (body : dict) :
  last_page body -> has_next (JObj body) = Return false.
Proof.
  unfold has_next, Dict.mem. simpl.
  intros [H | (paging & H1 & H2)].
  - unfold Dict.mem. now rewrite H.
  - unfold Dict.mem. rewrite H1. simpl. unfold Dict.mem. now rewrite H2.
Qed.

Lemma has_next_link (body : dict) (v : json) :
  next_of body = Some v -> has_next (JObj body) = Return true.
Proof.
  unfold next_of, has_next. simpl. unfold Dict.mem.
  destruct (Dict.get "paging" body) as [[| | | | |?|paging]|]; try discriminate.
  simpl. unfold Dict.mem. now intros ->.
Qed.

Lemma next_params_link (body : dict) (v : json) :
  next_of body = Some v ->
  next_params urlparse_query parse_qsl (JObj body)
  = rbind (urlparse_query v) (fun q => Return (Dict.of_pairs (parse_qsl q))).
Proof.
  unfold next_of, next_params. simpl.
  destruct (Dict.get "paging" body) as [[| | | | |?|paging]|]; try discriminate.
  simpl. now intros ->.
Qed.

Lemma extend_data_mergeable (acc : list json) (body : dict) :
  mergeable body -> extend_data acc (JObj body) = Return (acc ++ rows_of body).
Proof.
  unfold extend_data, rows_of. simpl.
  intros [H | [rows H]]; rewrite H; simpl; auto.
Qed.

(** The run of the pager against an upstream serving a chain of pages,
    from any pending request. *)
Lemma crawl_run (w w' : World) (rq : request) (pages : list dict)
    (xs : list (request * get_outcome)) :
  crawls w rq pages w' xs ->
  forall (params : option dict) (acc : list json)
         (log : list (request * get_outcome)) (fuel : nat),
    rq = rq_for (params_or_empty params) ->
    Forall mergeable pages ->
    (List.length pages <= fuel)%nat ->
    bind (make_request params) (fun resp =>
      bind (lift (extend_data acc resp)) (fun acc' =>
        follow fuel self endpoint resp acc')) (State w log)
    = (Return (acc ++ List.concat (map rows_of pages)), State w' (log ++ xs)).
Proof.
  induction 1 as [w w' rq r body Hget Hs Hj Hlast
                 | w w1 w' rq r body u q pages xs Hget Hs Hj Hnext Hq Hc IH];
    intros params acc log fuel -> Hok Hfuel;
    inversion Hok as [|? ? Hbody Hrest]; subst;
    destruct fuel as [|fuel]; simpl in Hfuel; try lia;
    unfold bind at 1; rewrite (make_request_served _ _ _ _ _ _ Hget Hs Hj);
    unfold bind at 1, lift at 1; rewrite (extend_data_mergeable _ _ Hbody).
  - simpl. unfold bind, lift. rewrite (has_next_last _ Hlast).
    unfold ret. now rewrite app_nil_r.
  - cbn [follow_pages]. unfold bind at 1, lift at 1.
    rewrite (has_next_link _ _ Hnext).
    unfold bind at 1, lift at 1.
    rewrite (next_params_link _ _ Hnext), Hq. cbn [rbind].
    rewrite (IH (Some (Dict.of_pairs (parse_qsl q))) _ _ fuel eq_refl Hrest)
      by lia.
    cbn [map List.concat]. now rewrite <- !app_assoc.
Qed.

Lemma crawl_length (w w' : World) (rq : request) (pages : list dict)
    (xs : list (request * get_outcome)) :
  crawls w rq pages w' xs -> List.length xs = List.length pages.
Proof. induction 1; simpl; auto. Qed.

Lemma paginated_crawl (w w' : World) (params : option dict)
    (pages : list dict) (xs log : list (request * get_outcome))
    (fuel : nat) :
  crawls w (rq_for (params_or_empty params)) pages w' xs ->
  Forall mergeable pages ->
  (List.length pages <= fuel)%nat ->
  paginated fuel self endpoint params (State w log)
  = (Return (JObj [("data", JArr (List.concat (map rows_of pages)))]),
     State w' (log ++ xs)).
Proof.
  intros Hc Hok Hfuel.
  pose proof (crawl_run _ _ _ _ _ Hc params [] log fuel eq_refl Hok Hfuel) as H.
  unfold _make_paginated_request.
  unfold bind in *. 
  destruct (make_request params (State w log)) as [[resp| |] st1]; try discriminate.
  unfold lift in *.
  destruct (extend_data [] resp) as [acc| |]; try discriminate.
  rewrite H. reflexivity.
Qed.


(** C1. Against an upstream serving N pages chained by [paging.next]
    links, each carrying a list of rows, the paginated fetch returns
    [{'data': rows}] where [rows] is the rows of the pages in page order,
    each page's rows in their order; their number is the sum of the page
    sizes; exactly N GETs are issued, the i-th answered with the i-th
    page.  Any fuel of at least N is enough for the loop. *)
Theorem pagination_complete (w w' : World) (params : option dict)
    (pages : list dict) (xs log : list (request * get_outcome))
    (fuel : nat) :
  crawls w (rq_for (params_or_empty params)) pages w' xs ->
  Forall carries_rows pages ->
  (List.length pages <= fuel)%nat ->
  let rows := List.concat (map rows_of pages) in
  paginated fuel self endpoint params (State w log)
  = (Return (JObj [("data", JArr rows)]), State w' (log ++ xs))
  /\ List.length rows
     = list_sum (map (fun body => List.length (rows_of body)) pages)
  /\ List.length xs = List.length pages
  /\ Forall2
       (fun x body =>
          exists r, snd x = Responded r /\ json_body r = Some (JObj body))
       xs pages.
Proof.
  intros Hc Hrows Hfuel rows. split; [|split; [|split]].
  - apply paginated_crawl; auto.
    eapply Forall_impl; [|exact Hrows]. intros body H. now right.
  - unfold rows. rewrite length_concat, map_map. reflexivity.
  - eapply crawl_length; eauto.
  - clear -Hc.
    induction Hc; constructor; try (exists r; split; [reflexivity|assumption]);
      auto.
Qed.

(** C10. A page without a [data] key merges as an empty page: it adds no
    row and raises nothing, and the pages after it are still fetched, so
    that the fetch returns the rows of the other pages and issues one GET
    per page, the page without [data] included. *)
Theorem missing_data_is_empty_page (w w' : World) (params : option dict)
    (before after : list dict) (body : dict)
    (xs log : list (request * get_outcome)) (fuel : nat) :
  Dict.get "data" body = None ->
  crawls w (rq_for (params_or_empty params)) (before ++ body :: after) w' xs ->
  Forall mergeable (before ++ after) ->
  (List.length (before ++ body :: after) <= fuel)%nat ->
  (forall acc, extend_data acc (JObj body) = Return acc)
  /\ paginated fuel self endpoint params (State w log)
     = (Return (JObj [("data",
          JArr (List.concat (map rows_of before)
                ++ List.concat (map rows_of after)))]),
        State w' (log ++ xs))
  /\ List.length xs = List.length (before ++ body :: after).
Proof.
  intros Hdata Hc Hok Hfuel.
  assert (Hbody : mergeable body) by now left.
  assert (Hempty : rows_of body = []) by (unfold rows_of; now rewrite Hdata).
  split; [|split].
  - intros acc. rewrite extend_data_mergeable by exact Hbody.
    now rewrite Hempty, app_nil_r.
  - rewrite (paginated_crawl _ _ _ _ _ _ _ Hc); auto.
    + rewrite map_app, concat_app. cbn [map List.concat].
      now rewrite Hempty.
    + apply Forall_app in Hok as [Hb Ha]. apply Forall_app. auto.
  - eapply crawl_length; eauto.
Qed.


Lemma aborts_no_exchange (A : Type) (st : state World) (res : result A) :
  aborts A st (res, st).
Proof.
  exists []. simpl. split; [now rewrite app_nil_r | intros ? ? []].
Qed.

Lemma aborts_after_request (A : Type) (params : option dict)
    (k : json -> M World A) (st : state World) :
  (forall j st', aborts A st' (k j st')) ->
  aborts A st (bind (make_request params) k st).
Proof.
  intros Hk. unfold bind. rewrite make_request_run.
  set (rq := rq_for (params_or_empty params)).
  destruct (requests_get rq (world st)) as [[r|detail] w1]; cbn [fst snd].
  2:{ exists [(rq, Failed detail)]. split; [reflexivity|].
      intros rq' r' [H|[]]. discriminate. }
  destruct (raise_for_status r) as [e|] eqn:Hr.
  { exists [(rq, Responded r)]. split; [reflexivity|].
    intros rq' r' [H|[]] _. inversion H; subst. exists e. auto. }
  assert (Hfine : forall rq' r', In (rq', Responded r') [(rq, Responded r)] ->
                   400 <= status_code r' < 600 -> False).
  { intros rq' r' [H|[]] Hs. inversion H; subst.
    destruct (raise_for_status_some _ Hs) as [e He]. congruence. }
  destruct (json_body r) as [j|].
  2:{ exists [(rq, Responded r)]. split; [reflexivity|].
      intros rq' r' Hin Hs. destruct (Hfine _ _ Hin Hs). }
  destruct (Hk j (State w1 (exchanges st ++ [(rq, Responded r)])))
    as (new & Hlog & Hnew).
  exists ((rq, Responded r) :: new). split.
  - rewrite Hlog. cbn [exchanges]. now rewrite <- app_assoc.
  - intros rq' r' [H|Hin] Hs.
    + destruct (Hfine rq' r'); [left; exact H | exact Hs].
    + eauto.
Qed.

Lemma aborts_lift (A B : Type) (x : result A) (k : A -> M World B)
    (st : state World) :
  (forall a, aborts B st (k a st)) ->
  aborts B st (bind (lift x) k st).
Proof.
  intros Hk. unfold bind, lift.
  destruct x; auto using aborts_no_exchange.
Qed.

Lemma follow_aborts (fuel : nat) :
  forall (resp : json) (acc : list json) (st : state World),
    aborts _ st (follow fuel self endpoint resp acc st).
Proof.
  induction fuel as [|fuel IH]; intros resp acc st; cbn [follow_pages].
  - apply aborts_no_exchange.
  - apply aborts_lift. intros [|].
    + apply aborts_lift. intros p.
      apply aborts_after_request. intros j st'.
      apply aborts_lift. intros acc'. apply IH.
    + apply aborts_no_exchange.
Qed.

Lemma paginated_aborts (fuel : nat) (params : option dict)
    (st : state World) :
  aborts _ st (paginated fuel self endpoint params st).
Proof.
  unfold _make_paginated_request.
  apply aborts_after_request. intros j st'.
  apply aborts_lift. intros acc.
  pose proof (follow_aborts fuel j acc st') as (new & Hlog & Hnew).
  unfold bind.
  destruct (follow fuel self endpoint j acc st') as [[all|x|] st2] eqn:E;
    cbn [fst snd] in *; exists new; split; auto; intros rq r Hin Hs;
    destruct (Hnew rq r Hin Hs) as (e & Hr & He); try discriminate.
  exists e. split; [exact Hr|]. injection He as ->. reflexivity.
Qed.


(** C2, amended. If, in a paginated fetch, some GET was answered with a
    4xx or 5xx status, the fetch raises the RequestException made from
    that response and returns no value: the rows merged from the pages
    before it are not returned. *)
Theorem all_or_nothing (fuel : nat) (params : option dict)
    (st : state World) (new : list (request * get_outcome))
    (rq : request) (r : response) :
  let out := paginated fuel self endpoint params st in
  exchanges (snd out) = exchanges st ++ new ->
  In (rq, Responded r) new ->
  400 <= status_code r < 600 ->
  (exists e,
      raise_for_status r = Some e
      /\ fst out = Raise (RequestException (format_error py_repr e r)))
  /\ forall v, fst out <> Return v.
Proof.
  intros out Hlog Hin Hs.
  destruct (paginated_aborts fuel params st) as (new' & Hlog' & Hnew).
  fold out in Hlog', Hnew. rewrite Hlog in Hlog'.
  apply app_inv_head in Hlog'. subst new'.
  destruct (Hnew rq r Hin Hs) as (e & Hr & He).
  split; [exists e; auto|]. intros v Hv. congruence.
Qed.

Lemma follow_extends (fuel : nat) (resp : json) (acc : list json)
    (st : state World) :
  exists new,
    exchanges (snd (follow fuel self endpoint resp acc st))
    = exchanges st ++ new.
Proof.
  destruct (follow_aborts fuel resp acc st) as (new & H & _). eauto.
Qed.

(** C3. When a response carries a [paging.next] URL, the loop calls
    [_make_request] on the same endpoint with the mapping read from the
    query string of that URL and nothing else, so that the next GET goes
    to [base_url + endpoint] with those parameters and the access token;
    the parameters of the request before play no part.  A response
    without a [paging] key, or whose [paging] has no [next], ends the
    loop: the accumulated rows are returned and no GET is issued. *)
Theorem next_request_from_next_url (fuel : nat) (acc : list json)
    (st : state World) :
  (forall (body : dict) (u q : string),
      next_of body = Some (JStr u) ->
      urlparse_query (JStr u) = Return q ->
      let p := Dict.of_pairs (parse_qsl q) in
      follow (S fuel) self endpoint (JObj body) acc st
      = bind (make_request (Some p)) (fun resp' =>
          bind (lift (extend_data acc resp')) (fun acc' =>
            follow fuel self endpoint resp' acc')) st
      /\ exists rest,
           exchanges (snd (follow (S fuel) self endpoint (JObj body) acc st))
           = exchanges st
             ++ (rq_for p, fst (requests_get (rq_for p) (world st))) :: rest)
  /\ (forall body : dict,
        last_page body ->
        follow (S fuel) self endpoint (JObj body) acc st = (Return acc, st)).
Proof.
  split.
  - intros body u q Hnext Hq p.
    assert (Hstep :
      follow (S fuel) self endpoint (JObj body) acc st
      = bind (make_request (Some p)) (fun resp' =>
          bind (lift (extend_data acc resp')) (fun acc' =>
            follow fuel self endpoint resp' acc')) st).
    { cbn [follow_pages]. unfold bind at 1, lift at 1.
      rewrite (has_next_link _ _ Hnext). unfold bind at 1, lift at 1.
      rewrite (next_params_link _ _ Hnext), Hq. reflexivity. }
    split; [exact Hstep|]. rewrite Hstep.
    unfold bind at 1. rewrite make_request_run.
    cbn [params_or_empty]. fold p.
    destruct (requests_get (rq_for p) (world st)) as [[r|detail] w1];
      cbn [fst snd]; [|exists []; reflexivity].
    destruct (raise_for_status r); [exists []; reflexivity|].
    destruct (json_body r) as [j|]; [|exists []; reflexivity].
    unfold bind, lift.
    destruct (extend_data acc j) as [acc'| |]; try (exists []; reflexivity).
    destruct (follow_extends fuel j acc'
                (State w1 (exchanges st ++ [(rq_for p, Responded r)])))
      as (new & Hnew).
    exists new. rewrite Hnew. cbn [exchanges]. now rewrite <- app_assoc.
  - intros body Hlast. cbn [follow_pages]. unfold bind, lift.
    now rewrite (has_next_last _ Hlast).
Qed.

(** C4, amended. When the GET of [_make_request] is answered with a 4xx or
    5xx status, the call raises one RequestException, whatever the body:
    no other exception leaves the handler.  If the body is JSON with an
    [error] object, the message is made of the upstream code ([Unknown]
    without one), the upstream message (the HTTP error text without one)
    and, when present, the subcode.  If the body is not JSON, the message
    is the generic one, ending in the HTTP error text. *)
Theorem http_error_message (params : option dict) (st : state World)
    (r : response) (w' : World) :
  let rq := rq_for (params_or_empty params) in
  requests_get rq (world st) = (Responded r, w') ->
  400 <= status_code r < 600 ->
  exists e,
    raise_for_status r = Some e
    /\ make_request params st
       = (Raise (RequestException (format_error py_repr e r)),
          State w' (exchanges st ++ [(rq, Responded r)]))
    /\ (forall body detail,
          json_body r = Some (JObj body) ->
          Dict.get "error" body = Some (JObj detail) ->
          let code :=
            match Dict.get "code" detail with
            | Some c => c
            | None => JStr "Unknown"
            end in
          let message :=
            match Dict.get "message" detail with
            | Some m => m
            | None => JStr e
            end in
          let main :=
            ("Facebook API Error " ++ py_str py_repr code ++ ": "
             ++ py_str py_repr message)%string in
          format_error py_repr e r
          = match Dict.get "error_subcode" detail with
            | Some sub =>
                (main ++ " (Subcode: " ++ py_str py_repr sub ++ ")")%string
            | None => main
            end)
    /\ (json_body r = None ->
        format_error py_repr e r
        = ("Facebook API request failed: " ++ e)%string).
Proof.
  intros rq Hget Hs.
  destruct (raise_for_status_some _ Hs) as [e He].
  exists e. split; [exact He|]. split; [|split].
  - rewrite make_request_run. fold rq. rewrite Hget. cbn [fst snd].
    now rewrite He.
  - intros body detail Hbody Herr. unfold format_error.
    rewrite Hbody. cbn [py_contains py_getitem]. unfold Dict.mem.
    rewrite Herr. cbn [py_get py_contains py_getitem]. unfold Dict.mem.
    destruct (Dict.get "error_subcode" detail); reflexivity.
  - intros Hbody. unfold format_error. now rewrite Hbody.
Qed.

End PagerFacts.

(** ** Account ids and the insights tool *)

Section ToolFacts.

Import facebook_client.

Variable World : Type.
Variable requests_get : request -> World -> get_outcome * World.
Variable urlparse_query : json -> result string.
Variable parse_qsl : string -> list (string * string).
Variable py_repr : json -> string.
Variable json_dumps : json -> string.

Local Abbreviation paginated :=
  (_make_paginated_request World requests_get urlparse_query parse_qsl
     py_repr).

Lemma act_prefixed_has_prefix (account_id : string) :
  prefix "act_" (act_prefixed account_id) = true.
Proof.
  unfold act_prefixed.
  destruct (prefix "act_" account_id) eqn:E; [exact E | ].
  cbn [append prefix].
  repeat (match goal with
          | |- context [ascii_dec ?a ?a] =>
              destruct (ascii_dec a a) as [_|N]; [|now destruct N]
          end).
  now destruct account_id.
Qed.

(** C9. An account id that does not start with [act_] is used with [act_]
    put before it, once; an id that starts with [act_] is used as it is;
    so the id used always starts with [act_] and prefixing it again
    changes nothing.  The three listings and the insights method build
    their endpoint path from the id so prefixed. *)
Theorem account_id_prefixed_once (account_id : string) :
  (prefix "act_" account_id = false ->
   act_prefixed account_id = ("act_" ++ account_id)%string)
  /\ (prefix "act_" account_id = true ->
      act_prefixed account_id = account_id)
  /\ act_prefixed (act_prefixed account_id) = act_prefixed account_id
  /\ (forall fuel self status limit,
        exists params,
          get_campaigns World requests_get urlparse_query parse_qsl py_repr
            json_dumps fuel self account_id status limit
          = paginated fuel self
              ("/" ++ act_prefixed account_id ++ "/campaigns")%string
              params)
  /\ (forall fuel self status limit,
        exists params,
          get_ad_sets World requests_get urlparse_query parse_qsl py_repr
            json_dumps fuel self account_id status limit
          = paginated fuel self
              ("/" ++ act_prefixed account_id ++ "/adsets")%string
              params)
  /\ (forall fuel self status limit,
        exists params,
          get_ads World requests_get urlparse_query parse_qsl py_repr
            json_dumps fuel self account_id status limit
          = paginated fuel self
              ("/" ++ act_prefixed account_id ++ "/ads")%string
              params)
  /\ (forall fuel self q limit,
        exists params,
          get_account_insights World requests_get urlparse_query parse_qsl
            py_repr json_dumps fuel self account_id q limit
          = paginated fuel self
              ("/" ++ act_prefixed account_id ++ "/insights")%string
              params).
Proof.
  split; [|split; [|split; [|split; [|split; [|split]]]]].
  - unfold act_prefixed. now intros ->.
  - unfold act_prefixed. now intros ->.
  - unfold act_prefixed at 1. now rewrite act_prefixed_has_prefix.
  - intros. eexists. reflexivity.
  - intros. eexists. reflexivity.
  - intros. eexists. reflexivity.
  - intros. eexists. reflexivity.
Qed.

Lemma paginated_shape (fuel : nat) (self : FacebookAdsClient)
    (endpoint : string) (params : option dict) (st st' : state World)
    (resp : json) :
  paginated fuel self endpoint params st = (Return resp, st') ->
  exists rows, resp = JObj [("data", JArr rows)].
Proof.
  unfold _make_paginated_request, bind, lift, ret.
  destruct (_make_request _ _ _ _ _ _ st) as [[j| |] st1]; try discriminate.
  destruct (extend_data [] j) as [acc| |]; try discriminate.
  destruct (follow_pages _ _ _ _ _ _ _ _ _ _ st1) as [[all| |] st2];
    try discriminate.
  intros H. injection H as <- _. eauto.
Qed.

Variable env_token : option string.
Variable process_insights : json -> result json.
Variable convert_numeric_fields : json -> result json.

(** C8. Once the client has returned the pager's response: with the flag
    set, the tool returns what [convert_numeric_fields] makes of what
    [process_insights] makes of that response, in this order; with the
    flag unset, it returns the pager's rows themselves. *)
Theorem insights_flag (fuel : nat) (account_id : string)
    (q : insights_query) (st st' : state World)
    (client : FacebookAdsClient) (resp : json) :
  server._get_client env_token = Return client ->
  get_account_insights World requests_get urlparse_query parse_qsl py_repr
    json_dumps fuel client account_id q 100 st = (Return resp, st') ->
  let tool :=
    server.get_account_insights World requests_get urlparse_query parse_qsl
      py_repr json_dumps env_token process_insights convert_numeric_fields
      fuel account_id q in
  tool true st
  = (rbind (process_insights resp) convert_numeric_fields, st')
  /\ exists rows,
       resp = JObj [("data", JArr rows)]
       /\ tool false st = (Return (JArr rows), st').
Proof.
  intros Hclient Hresp tool. unfold tool, server.get_account_insights.
  unfold bind at 1 3, lift at 1 3. rewrite Hclient.
  unfold bind. rewrite Hresp. split; [reflexivity|].
  destruct (paginated_shape _ _ _ _ _ _ _ Hresp) as [rows ->].
  exists rows. split; reflexivity.
Qed.

End ToolFacts.

(** ** The normaliser *)

Section FlattenFacts.

Import data_processor.

Variable sanitize : string -> string.

Lemma prefix_append (p s : string) : prefix p (p ++ s) = true.
Proof.
  induction p as [|a p IH]; simpl.
  - now destruct s.
  - destruct (ascii_dec a a) as [_|N]; [exact IH | now destruct N].
Qed.

Lemma flat_fields_prefix (p k : string) (v : json) :
  In k (Dict.keys (flat_fields sanitize p v)) -> prefix p k = true.
Proof.
  unfold flat_fields, Dict.keys. rewrite in_map_iff.
  intros ([k' x] & <- & Hin). apply in_flat_map in Hin as (e & _ & He).
  destruct (action_entry e) as [[t y]|]; [|destruct He].
  destruct He as [He|[]]. injection He as <- _. apply prefix_append.
Qed.

Lemma synthesized_prefix (row : dict) (k : string) :
  In k (Dict.keys (synthesized sanitize row)) ->
  exists kp, In kp action_prefixes /\ prefix (snd kp) k = true.
Proof.
  unfold synthesized, Dict.keys. rewrite in_map_iff.
  intros ([k' x] & <- & Hin). apply in_flat_map in Hin as (kp & Hkp & Hin).
  exists kp. split; [exact Hkp|].
  destruct (Dict.get (fst kp) row) as [v|]; [|destruct Hin].
  apply flat_fields_prefix with (v := v).
  unfold Dict.keys. apply in_map_iff. now exists (k', x).
Qed.

Lemma get_pass_through (row : dict) (k : string) :
  Dict.get k (pass_through row)
  = if is_action_key k then None else Dict.get k row.
Proof.
  unfold pass_through.
  rewrite (DictFacts.get_filter_key (fun k => negb (is_action_key k))).
  now destruct (is_action_key k).
Qed.

(** A key no flat field takes has, after flattening, the value the
    pass-through part gives it. *)
Lemma get_flatten_unsynthesized (row : dict) (k : string) :
  ~ In k (Dict.keys (synthesized sanitize row)) ->
  Dict.get k (flatten_record sanitize row)
  = if is_action_key k then None else Dict.get k row.
Proof.
  intros Hnot. unfold flatten_record.
  rewrite DictFacts.get_update_absent by exact Hnot.
  apply get_pass_through.
Qed.

Lemma actions_never_synthesized (row : dict) :
  ~ In "actions" (Dict.keys (synthesized sanitize row)).
Proof.
  intros H. apply synthesized_prefix in H as (kp & Hkp & Hp).
  simpl in Hkp. destruct Hkp as [<-|[<-|[<-|[]]]]; vm_compute in Hp;
    discriminate.
Qed.

Lemma mem_set_keeps (k k' : string) (v : json) (d : dict) :
  Dict.mem k d = true -> Dict.mem k (Dict.set k' v d) = true.
Proof.
  unfold Dict.mem. intros H.
  destruct (String.eqb k k') eqn:E.
  - apply String.eqb_eq in E. subst k'. now rewrite DictFacts.get_set_same.
  - apply String.eqb_neq in E. now rewrite DictFacts.get_set_other.
Qed.

Lemma mem_update (k : string) (other d : dict) :
  Dict.mem k d = true \/ In k (Dict.keys other) ->
  Dict.mem k (Dict.update d other) = true.
Proof.
  unfold Dict.update. revert d.
  induction other as [|[k' v'] other IH]; intros d H; cbn [fold_left fst snd].
  - destruct H as [H|[]]. exact H.
  - apply IH. destruct H as [H|[H|H]].
    + left. now apply mem_set_keeps.
    + left. cbn [fst] in H. subst k'. unfold Dict.mem.
      now rewrite DictFacts.get_set_same.
    + now right.
Qed.

Lemma flat_field_synthesized (row : dict) (key p t : string)
    (entries : list json) (e x : json) :
  In (key, p) action_prefixes ->
  Dict.get key row = Some (JArr entries) ->
  In e entries ->
  action_entry e = Some (t, x) ->
  In (p ++ sanitize t)%string (Dict.keys (synthesized sanitize row)).
Proof.
  intros Hkp Hget Hin He. unfold Dict.keys, synthesized.
  apply in_map_iff. exists ((p ++ sanitize t)%string, x). split; [reflexivity|].
  apply in_flat_map. exists (key, p). split; [exact Hkp|].
  cbn [fst snd]. rewrite Hget. unfold flat_fields. cbn [entries_of].
  apply in_flat_map. exists e. split; [exact Hin|]. rewrite He. now left.
Qed.

Lemma flat_pair_synthesized (row : dict) (key p t : string)
    (before after : list json) (e x : json) :
  In (key, p) action_prefixes ->
  Dict.get key row = Some (JArr (before ++ e :: after)) ->
  action_entry e = Some (t, x) ->
  In ((p ++ sanitize t)%string, x) (synthesized sanitize row).
Proof.
  intros Hkp Hget He. unfold synthesized.
  apply in_flat_map. exists (key, p). split; [exact Hkp|].
  cbn [fst snd]. rewrite Hget. unfold flat_fields. cbn [entries_of].
  apply in_flat_map. exists e. split; [apply in_elt|]. rewrite He. now left.
Qed.

(** After [d.update(fields)], a key of [fields] holds one of the values
    [fields] gives it; the only one, when [fields] has no key twice. *)
Lemma get_update_present (k : string) (other d : dict) :
  In k (Dict.keys other) ->
  exists x, In (k, x) other /\ Dict.get k (Dict.update d other) = Some x.
Proof.
  unfold Dict.update, Dict.keys.
  induction other as [|[k' v'] other IH] using rev_ind; intros Hin.
  - destruct Hin.
  - rewrite fold_left_app. cbn [fold_left fst snd].
    destruct (String.eqb k k') eqn:E.
    + apply String.eqb_eq in E. subst k'. exists v'. split.
      * apply in_or_app. right. now left.
      * apply DictFacts.get_set_same.
    + apply String.eqb_neq in E.
      rewrite map_app in Hin. apply in_app_or in Hin as [Hin|[Hin|[]]].
      * destruct (IH Hin) as (x & Hx & Hget). exists x. split.
        -- apply in_or_app. now left.
        -- now rewrite DictFacts.get_set_other.
      * cbn in Hin. congruence.
Qed.

Lemma get_update_nodup (k : string) (x : json) (other d : dict) :
  NoDup (Dict.keys other) ->
  In (k, x) other ->
  Dict.get k (Dict.update d other) = Some x.
Proof.
  unfold Dict.update, Dict.keys. revert d.
  induction other as [|[k' v'] other IH]; intros d Hnd Hin; [destruct Hin|].
  cbn [map fst] in Hnd. inversion Hnd as [|? ? Hnot Hrest]; subst.
  cbn [fold_left fst snd]. destruct Hin as [Heq|Hin].
  - injection Heq as -> ->.
    fold (Dict.update (Dict.set k x d) other).
    rewrite DictFacts.get_update_absent by exact Hnot.
    apply DictFacts.get_set_same.
  - now apply IH.
Qed.

(** C5, amended. A Record whose [actions] is the one entry
    [{"action_type": "purchase", "value": "5"}] flattens to a Record where
    [action_purchase] is the text ["5"] and there is no [actions] key.
    For every Record: each well-formed entry of an action-bearing list
    gives the Record its flat key, the table's prefix before the sanitised
    action type, and that key holds the entry's value when no two flat
    fields of the Record share a key; a key that is not one of the flat
    keys made from the Record is removed when it is action-bearing and
    keeps its value (or its absence) when it is not; a key that is one of
    the flat keys made from the Record, whether or not the Record had it
    before, holds a value one of those entries gives it.  The sanitiser is
    any function that leaves [purchase] as it is. *)
Theorem flattening_correct :
  sanitize "purchase" = "purchase" ->
  (forall row,
      Dict.get "actions" row
      = Some (JArr [JObj [("action_type", JStr "purchase");
                          ("value", JStr "5")]]) ->
      Dict.get "action_purchase" (flatten_record sanitize row)
      = Some (JStr "5")
      /\ Dict.get "actions" (flatten_record sanitize row) = None)
  /\ (forall row key p entries e t x,
        In (key, p) action_prefixes ->
        Dict.get key row = Some (JArr entries) ->
        In e entries ->
        action_entry e = Some (t, x) ->
        Dict.mem (p ++ sanitize t) (flatten_record sanitize row) = true)
  /\ (forall row k,
        ~ In k (Dict.keys (synthesized sanitize row)) ->
        Dict.get k (flatten_record sanitize row)
        = if is_action_key k then None else Dict.get k row)
  /\ (forall row key p before e after t x,
        In (key, p) action_prefixes ->
        Dict.get key row = Some (JArr (before ++ e :: after)) ->
        action_entry e = Some (t, x) ->
        NoDup (Dict.keys (synthesized sanitize row)) ->
        Dict.get (p ++ sanitize t) (flatten_record sanitize row) = Some x)
  /\ (forall row k,
        In k (Dict.keys (synthesized sanitize row)) ->
        exists key p entries e t x,
          In (key, p) action_prefixes
          /\ Dict.get key row = Some (JArr entries)
          /\ In e entries
          /\ action_entry e = Some (t, x)
          /\ k = (p ++ sanitize t)%string
          /\ Dict.get k (flatten_record sanitize row) = Some x).
Proof.
  intros Hs. split; [|split; [|split; [|split]]].
  - intros row Hactions. split.
    + unfold flatten_record, synthesized.
      cbn [action_prefixes flat_map fst snd]. rewrite Hactions.
      cbn [flat_fields entries_of flat_map action_entry Dict.get String.eqb
           Ascii.eqb Bool.eqb app].
      rewrite Hs. cbn [append].
      unfold Dict.update. cbn [fold_left fst snd].
      fold (Dict.update
              (Dict.set "action_purchase" (JStr "5") (pass_through row))
              (match Dict.get "action_values" row with
               | Some v => flat_fields sanitize "action_value_" v
               | None => []
               end
               ++ match Dict.get "conversions" row with
                  | Some v => flat_fields sanitize "conversion_" v
                  | None => []
                  end ++ [])).
      rewrite DictFacts.get_update_absent.
      * apply DictFacts.get_set_same.
      * unfold Dict.keys. rewrite !map_app. intros H.
        apply in_app_or in H as [H|H]; [|apply in_app_or in H as [H|[]]].
        -- destruct (Dict.get "action_values" row) as [v|]; [|destruct H].
           apply flat_fields_prefix in H. vm_compute in H. discriminate.
        -- destruct (Dict.get "conversions" row) as [v|]; [|destruct H].
           apply flat_fields_prefix in H. vm_compute in H. discriminate.
    + now rewrite (get_flatten_unsynthesized _ _
                     (actions_never_synthesized row)).
  - intros row key p entries e t x Hkp Hget Hin He.
    unfold flatten_record. apply mem_update. right.
    eapply flat_field_synthesized; eauto.
  - intros row k Hnot. now apply get_flatten_unsynthesized.
  - intros row key p before e after t x Hkp Hget He Hnd.
    unfold flatten_record. apply get_update_nodup; [exact Hnd|].
    eapply flat_pair_synthesized; eauto.
  - intros row k Hin. unfold flatten_record.
    destruct (get_update_present k (synthesized sanitize row)
                (pass_through row) Hin) as (x & Hx & Hget).
    unfold synthesized in Hx.
    apply in_flat_map in Hx as ([key p] & Hkp & Hx). cbn [fst snd] in Hx.
    destruct (Dict.get key row) as [v|] eqn:Hv; [|destruct Hx].
    unfold flat_fields in Hx. apply in_flat_map in Hx as (e & He & Hx).
    destruct (action_entry e) as [[t y]|] eqn:Ee; [|destruct Hx].
    destruct Hx as [Hx|[]]. injection Hx as <- <-.
    destruct v as [| | | | |entries|]; try destruct He.
    exists key, p, entries, e, t, y. repeat split; auto.
Qed.

(** An entry of a nested list that is a mapping without [action_type] or
    without [value]. *)
Lemma malformed_entry (e : json) :
  missing_field e -> action_entry e = None.
Proof.
  intros (d & -> & [H|H]); unfold action_entry; rewrite H; auto.
  destruct (Dict.get "action_type" d) as [[]|]; reflexivity.
Qed.

Lemma flat_fields_skip (p : string) (before after : list json) (bad : json) :
  missing_field bad ->
  flat_fields sanitize p (JArr (before ++ bad :: after))
  = flat_fields sanitize p (JArr (before ++ after)).
Proof.
  intros Hbad. unfold flat_fields. cbn [entries_of].
  rewrite !flat_map_app. cbn [flat_map].
  now rewrite (malformed_entry _ Hbad).
Qed.

Lemma pass_through_set (key : string) (v : json) (row : dict) :
  is_action_key key = true ->
  pass_through (Dict.set key v row) = pass_through row.
Proof.
  intros Hkey. unfold pass_through.
  induction row as [|[k' v'] row IH]; simpl.
  - now rewrite Hkey.
  - destruct (String.eqb key k') eqn:E; simpl.
    + apply String.eqb_eq in E. subst k'. now rewrite Hkey.
    + now rewrite IH.
Qed.

Lemma synthesized_set (key : string) (v v' : json) (row : dict) :
  (forall p, flat_fields sanitize p v = flat_fields sanitize p v') ->
  synthesized sanitize (Dict.set key v row)
  = synthesized sanitize (Dict.set key v' row).
Proof.
  intros Hsame. unfold synthesized. apply flat_map_ext. intros [k p].
  cbn [fst snd]. destruct (String.eqb k key) eqn:E.
  - apply String.eqb_eq in E. subst k.
    rewrite !DictFacts.get_set_same. apply Hsame.
  - apply String.eqb_neq in E. now rewrite !DictFacts.get_set_other.
Qed.

(** C7. A malformed entry of an action-bearing list, one without
    [action_type] or without [value], is skipped and nothing else is: the
    Record flattens to what it flattens to without that entry, so every
    other key and every well-formed entry comes out as it would; the
    transform returns one Record for each Record it is given, and being a
    total function it raises nothing.  So [actions: [{"value": "3"}]]
    next to a [spend] key flattens to the [spend] key alone. *)
Theorem malformed_entry_skipped (row : dict) (key : string)
    (before after : list json) (bad : json) (rows : list dict) :
  is_action_key key = true ->
  missing_field bad ->
  flatten_record sanitize (Dict.set key (JArr (before ++ bad :: after)) row)
  = flatten_record sanitize (Dict.set key (JArr (before ++ after)) row)
  /\ List.length (flatten_actions sanitize rows) = List.length rows
  /\ flatten_record sanitize
       [("spend", JStr "1.5"); ("actions", JArr [JObj [("value", JStr "3")]])]
     = [("spend", JStr "1.5")].
Proof.
  intros Hkey Hbad. split; [|split].
  - unfold flatten_record. rewrite !pass_through_set by exact Hkey.
    f_equal. apply synthesized_set. intros p. now apply flat_fields_skip.
  - unfold flatten_actions. apply length_map.
  - reflexivity.
Qed.

End FlattenFacts.

Section ConvertFacts.

Import data_processor.

Lemma convert_value_idempotent (v : json) :
  convert_value (convert_value v) = convert_value v.
Proof.
  destruct v as [| | | |s| |]; try reflexivity.
  cbn [convert_value].
  destruct (parse_number s) as [[z|d]|] eqn:E; try reflexivity.
  cbn [convert_value]. now rewrite E.
Qed.

Lemma convert_record_idempotent (row : dict) :
  convert_record (convert_record row) = convert_record row.
Proof.
  unfold convert_record. rewrite map_map. apply map_ext. intros [k v].
  cbn [fst snd]. now rewrite convert_value_idempotent.
Qed.

Lemma take_digits_uint (d : Decimal.uint) :
  take_digits (list_ascii_of_string (NilEmpty.string_of_uint d))
  = (digits.digits_of_uint d, []).
Proof.
  induction d; cbn [NilEmpty.string_of_uint list_ascii_of_string take_digits
                    digits.digits_of_uint]; [reflexivity| ..];
    match goal with
    | |- context [digit_of ?c] =>
        change (digit_of c) with (Some (Z.of_nat (nat_of_ascii c) - 48))
    end; rewrite IHd; reflexivity.
Qed.

Lemma digits_acc (d : Decimal.uint) (acc : positive) :
  fold_left (fun a x => 10 * a + x) (digits.digits_of_uint d) (Z.pos acc)
  = Z.pos (Pos.of_uint_acc d acc).
Proof.
  revert acc. induction d; intros acc;
    cbn [digits.digits_of_uint fold_left Pos.of_uint_acc]; [reflexivity| ..];
    rewrite <- IHd; f_equal; lia.
Qed.

Lemma digits_value (d : Decimal.uint) :
  Z_of_digits (digits.digits_of_uint d) = Z.of_N (Pos.of_uint d).
Proof.
  unfold Z_of_digits.
  induction d; cbn [digits.digits_of_uint fold_left Pos.of_uint];
    [reflexivity | exact IHd | ..];
    cbn [Z.of_N]; rewrite <- digits_acc; reflexivity.
Qed.

Lemma parse_number_digits (s : string) (neg : bool) (l : list ascii)
    (ip : list Z) :
  take_sign (list_ascii_of_string s) = (neg, l) ->
  take_digits l = (ip, []) ->
  ip <> [] ->
  parse_number s = Some (NInt (signed neg (Z_of_digits ip))).
Proof.
  intros Hsign Hdigits Hip. unfold parse_number. rewrite Hsign, Hdigits.
  destruct ip; [now destruct Hip | reflexivity].
Qed.

Lemma to_uint_digits (p : positive) :
  NilZero.string_of_uint (Pos.to_uint p)
  = NilEmpty.string_of_uint (Pos.to_uint p)
  /\ take_sign (list_ascii_of_string (NilEmpty.string_of_uint (Pos.to_uint p)))
     = (false, list_ascii_of_string (NilEmpty.string_of_uint (Pos.to_uint p)))
  /\ digits.digits_of_uint (Pos.to_uint p) <> []
  /\ Z_of_digits (digits.digits_of_uint (Pos.to_uint p)) = Z.pos p.
Proof.
  assert (Hv : Z_of_digits (digits.digits_of_uint (Pos.to_uint p)) = Z.pos p).
  { rewrite digits_value, DecimalPos.Unsigned.of_to. reflexivity. }
  destruct (Pos.to_uint p) eqn:E;
    repeat split; try reflexivity; try discriminate; try exact Hv.
  all: cbn in Hv; discriminate.
Qed.

(** The decimal text of an integer parses as that integer. *)
Lemma parse_number_of_Z (z : Z) : parse_number (string_of_Z z) = Some (NInt z).
Proof.
  unfold string_of_Z. destruct z as [|p|p]; [reflexivity| |];
    destruct (to_uint_digits p) as (Hs & Hsign & Hne & Hv);
    cbn [Z.to_int NilZero.string_of_int]; rewrite Hs.
  - rewrite (parse_number_digits _ false _ _ Hsign (take_digits_uint _) Hne).
    now rewrite Hv.
  - rewrite (parse_number_digits
               (String "-" (NilEmpty.string_of_uint (Pos.to_uint p))) true
               (list_ascii_of_string (NilEmpty.string_of_uint (Pos.to_uint p)))
               _ eq_refl (take_digits_uint _) Hne).
    now rewrite Hv.
Qed.

Lemma get_convert_record (row : dict) (k : string) :
  Dict.get k (convert_record row) = option_map convert_value (Dict.get k row).
Proof.
  unfold convert_record.
  induction row as [|[k' v'] row IH]; cbn [map Dict.get fst snd];
    [reflexivity|].
  now destruct (String.eqb k k').
Qed.

Lemma keys_convert_record (row : dict) :
  Dict.keys (convert_record row) = Dict.keys row.
Proof.
  unfold convert_record, Dict.keys. rewrite map_map. now apply map_ext.
Qed.

(** C6. Converting twice gives what converting once gives, for every
    sequence of Records.  The transform returns one Record for each Record,
    with the same keys in the same order, and the value of every key is the
    conversion of the value it had: a text that reads as a number becomes
    that number, an integer when it has neither fraction nor exponent and a
    float otherwise, and every other value is left as it is.  So in a
    Record the text [12.50] becomes the float 12.5 (the decimal
    125 * 10^-1), the text [42] the integer 42, the text [abc] stays, and
    numbers, booleans, null and nested values stay; and the decimal text
    of any integer becomes that integer. *)
Theorem convert_numeric_idempotent (rows : list dict) :
  convert_numeric_fields (convert_numeric_fields rows)
  = convert_numeric_fields rows
  /\ convert_value (JStr "12.50") = JFloat (Decimal 125 (-1))
  /\ convert_value (JStr "42") = JInt 42
  /\ convert_value (JStr "abc") = JStr "abc"
  /\ (forall v,
        (forall s, v <> JStr s) -> convert_value v = v)
  /\ List.length (convert_numeric_fields rows) = List.length rows
  /\ map Dict.keys (convert_numeric_fields rows) = map Dict.keys rows
  /\ (forall i k,
        Dict.get k (nth i (convert_numeric_fields rows) [])
        = option_map convert_value (Dict.get k (nth i rows [])))
  /\ (forall s,
        convert_value (JStr s) = JStr s
        \/ (exists z, convert_value (JStr s) = JInt z)
        \/ (exists d, convert_value (JStr s) = JFloat d))
  /\ (forall z, convert_value (JStr (string_of_Z z)) = JInt z)
  /\ convert_numeric_fields
       [[("spend", JStr "12.50"); ("impressions", JStr "42");
         ("campaign_name", JStr "abc"); ("clicks", JInt 7);
         ("actions", JArr [JStr "3"])];
        [("cpc", JStr "-0.5"); ("reach", JStr "1e3"); ("date", JStr "2025-01-01")]]
     = [[("spend", JFloat (Decimal 125 (-1))); ("impressions", JInt 42);
         ("campaign_name", JStr "abc"); ("clicks", JInt 7);
         ("actions", JArr [JStr "3"])];
        [("cpc", JFloat (Decimal (-5) (-1))); ("reach", JFloat (Decimal 1 3));
         ("date", JStr "2025-01-01")]].
Proof.
  split; [|split; [|split; [|split; [|split; [|split; [|split; [|split;
    [|split; [|split]]]]]]]]]; try reflexivity.
  - unfold convert_numeric_fields. rewrite map_map. apply map_ext.
    apply convert_record_idempotent.
  - intros v Hv. destruct v; try reflexivity. now destruct (Hv s).
  - unfold convert_numeric_fields. apply length_map.
  - unfold convert_numeric_fields. rewrite map_map. apply map_ext.
    apply keys_convert_record.
  - intros i k. unfold convert_numeric_fields.
    change (@nil (string * json)) with (convert_record []) at 1.
    rewrite map_nth. apply get_convert_record.
  - intros s. cbn [convert_value].
    destruct (parse_number s) as [[z|d]|]; cbn [json_of_number]; eauto.
  - intros z. cbn [convert_value]. now rewrite parse_number_of_Z.
Qed.

End ConvertFacts.

(** ** The statements on the simulated upstream *)

Section OnTheSimulatedUpstream.

Import facebook_client upstream simulated.

Local Abbreviation endpoint := "/act_1/insights"%string.
Ltac crawl_pages :=
  repeat first
    [ eapply crawl_next;
      [ reflexivity | unfold served; cbn; lia | reflexivity | reflexivity
      | reflexivity | ]
    | eapply crawl_last;
      [ reflexivity | unfold served; cbn; lia | reflexivity
      | right; eexists; split; reflexivity ] ].

Ltac all_carry_rows :=
  repeat constructor; eexists; reflexivity.

Lemma pagination_complete_witness :
  fst (fetch (three_pages 200 (Some [row "c"])) 3 endpoint None)
  = Return (JObj [("data", JArr [row "a"; row "b"; row "c"; row "d"; row "e"])])
  /\ List.length
       (exchanges (snd (fetch (three_pages 200 (Some [row "c"])) 3 endpoint None)))
     = 3%nat.
Proof.
  assert (Hc : exists xs,
    crawl unit (serve (three_pages 200 (Some [row "c"]))) urlparse_query
      parse_qsl client endpoint tt
      (request_for client endpoint (params_or_empty None))
      [page_body (Some [row "a"; row "b"]) (Some "p2");
       page_body (Some [row "c"]) (Some "p3");
       page_body (Some [row "d"; row "e"]) None] tt xs).
  { eexists. crawl_pages. }
  destruct Hc as [xs Hc].
  destruct (pagination_complete unit _ urlparse_query parse_qsl py_repr
              client endpoint tt tt None _ xs [] 3 Hc)
    as (Hrun & _ & Hlen & _).
  - all_carry_rows.
  - cbn. lia.
  - unfold fetch. rewrite Hrun. cbn [fst snd exchanges app].
    split; [reflexivity | exact Hlen].
Defined.


Lemma missing_data_is_empty_page_witness :
  fst (fetch (three_pages 200 None) 3 endpoint None)
  = Return (JObj [("data", JArr [row "a"; row "b"; row "d"; row "e"])])
  /\ List.length (exchanges (snd (fetch (three_pages 200 None) 3 endpoint None)))
     = 3%nat.
Proof.
  assert (Hc : exists xs,
    crawl unit (serve (three_pages 200 None)) urlparse_query parse_qsl
      client endpoint tt
      (request_for client endpoint (params_or_empty None))
      ([page_body (Some [row "a"; row "b"]) (Some "p2")]
       ++ page_body None (Some "p3")
       :: [page_body (Some [row "d"; row "e"]) None]) tt xs).
  { eexists. cbn [app]. crawl_pages. }
  destruct Hc as [xs Hc].
  destruct (missing_data_is_empty_page unit _ urlparse_query parse_qsl
              py_repr client endpoint tt tt None
              [page_body (Some [row "a"; row "b"]) (Some "p2")]
              [page_body (Some [row "d"; row "e"]) None]
              (page_body None (Some "p3")) xs [] 3 eq_refl Hc)
    as (_ & Hrun & Hlen).
  - cbn [app]. repeat (apply Forall_cons; [right; eexists; reflexivity|]).
    apply Forall_nil.
  - cbn. lia.
  - unfold fetch. rewrite Hrun. cbn [fst snd exchanges app].
    split; [reflexivity | exact Hlen].
Defined.

Lemma all_or_nothing_witness :
  fst failing_run
  = Raise (RequestException
      "Facebook API request failed: 500 Server Error: Internal Server Error for url: https://graph.facebook.com/v24.0/act_1/insights")
  /\ forall v, fst failing_run <> Return v.
Proof.
  destruct (all_or_nothing unit (serve (three_pages 500 (Some [row "c"])))
              urlparse_query parse_qsl py_repr client endpoint 3 None
              (State tt []) (exchanges (snd failing_run))
              (request_for client endpoint
                 [("access_token", JStr "T"); ("after", JStr "p2")])
              (page 500 (Some [row "c"]) (Some "p3")))
    as ((e & He & Hraise) & Hnone).
  - reflexivity.
  - right. left. reflexivity.
  - cbn. lia.
  - split; [|exact Hnone].
    change (fst failing_run = Raise (RequestException
              (format_error py_repr e (page 500 (Some [row "c"]) (Some "p3")))))
      in Hraise.
    rewrite Hraise. vm_compute in He. injection He as <-. reflexivity.
Defined.

(** The second of three pages is answered with status 300, which is not a
    2xx status: the fetch raises nothing and returns the rows of all three
    pages. *)
Lemma non_2xx_page_counterexample :
  let out := fetch (three_pages 300 (Some [row "c"])) 3 endpoint None in
  (exists rq r,
      In (rq, Responded r) (exchanges (snd out))
      /\ status_code r = 300
      /\ ~ 200 <= status_code r < 300)
  /\ fst out
     = Return (JObj [("data",
         JArr [row "a"; row "b"; row "c"; row "d"; row "e"])]).
Proof.
  split; [|reflexivity].
  exists (request_for client endpoint
            [("access_token", JStr "T"); ("after", JStr "p2")]),
         (page 300 (Some [row "c"]) (Some "p3")).
  split; [right; left; reflexivity|]. split; [reflexivity|]. cbn. lia.
Qed.

Lemma next_request_from_next_url_witness :
  exists rest,
    exchanges
      (snd (follow_pages unit (serve (three_pages 200 (Some [row "c"])))
              urlparse_query parse_qsl py_repr 2 client endpoint
              (JObj (page_body (Some [row "a"; row "b"]) (Some "p2"))) []
              (State tt [])))
    = (Request "https://graph.facebook.com/v24.0/act_1/insights"
         [("access_token", JStr "T"); ("after", JStr "p2")] 30,
       Responded (page 200 (Some [row "c"]) (Some "p3"))) :: rest.
Proof.
  destruct (next_request_from_next_url unit
              (serve (three_pages 200 (Some [row "c"]))) urlparse_query
              parse_qsl py_repr client endpoint 1 [] (State tt []))
    as (Hnext & _).
  destruct (Hnext (page_body (Some [row "a"; row "b"]) (Some "p2"))
              (next_link "p2") "access_token=T&after=p2"%string
              eq_refl eq_refl)
    as (_ & rest & Hrest).
  exists rest. exact Hrest.
Defined.

Lemma http_error_message_witness :
  fst (get (refusal 400 (Some oauth_error)) endpoint None)
  = Raise (RequestException
      "Facebook API Error 190: Invalid OAuth access token. (Subcode: 460)")
  /\ fst (get (refusal 400 None) endpoint None)
     = Raise (RequestException
         "Facebook API request failed: 400 Client Error: Bad Request for url: https://graph.facebook.com/v24.0/act_1/insights").
Proof.
  split.
  - destruct (http_error_message unit (serve (refusal 400 (Some oauth_error)))
                py_repr client endpoint None (State tt [])
                (Response 400 (reason_of 400) insights_url (Some oauth_error))
                tt eq_refl)
      as (e & He & Hrun & _).
    + cbn. lia.
    + unfold get. rewrite Hrun. cbn [fst].
      vm_compute in He. injection He as <-. reflexivity.
  - destruct (http_error_message unit (serve (refusal 400 None))
                py_repr client endpoint None (State tt [])
                (Response 400 (reason_of 400) insights_url None)
                tt eq_refl)
      as (e & He & Hrun & _ & Hgeneric).
    + cbn. lia.
    + unfold get. rewrite Hrun. cbn [fst]. rewrite (Hgeneric eq_refl).
      vm_compute in He. injection He as <-. reflexivity.
Defined.

(** Two answers with status 300, which is not a 2xx status.  With the
    upstream's error object as body, [_make_request] raises nothing and
    returns the body; with a body that is not JSON, the exception that
    leaves it is the decoding error, not a RequestException with the
    generic message. *)
Lemma non_2xx_response_counterexample :
  (~ 200 <= 300 < 300)
  /\ fst (get (refusal 300 (Some oauth_error)) endpoint None)
     = Return oauth_error
  /\ fst (get (refusal 300 None) endpoint None) = Raise JSONDecodeError.
Proof.
  split; [lia|]. split; reflexivity.
Qed.

Lemma insights_flag_witness :
  fst (insights_tool true)
  = Return (JArr [JObj [("spend", JFloat (Decimal 125 (-1)));
                        ("impressions", JInt 42);
                        ("action_purchase", JInt 5)]])
  /\ fst (insights_tool false) = Return (JArr [insights_row]).
Proof.
  destruct (insights_flag unit (serve insights_page) urlparse_query parse_qsl
              py_repr json_dumps (Some "T"%string)
              (processor.process_insights processor.underscore_sanitize)
              processor.convert_numeric_fields 1 "1" query
              (State tt []) 
              (snd (insights_tool false)) client
              (JObj [("data", JArr [insights_row])]) eq_refl eq_refl)
    as (Htrue & rows & Hrows & Hfalse).
  injection Hrows as <-.
  unfold insights_tool. rewrite Htrue, Hfalse. split; reflexivity.
Defined.

Lemma account_id_prefixed_once_witness :
  act_prefixed "123456" = "act_123456"%string
  /\ act_prefixed "act_123456" = "act_123456"%string.
Proof.
  split.
  - exact (proj1 (account_id_prefixed_once unit (serve insights_page)
                    urlparse_query parse_qsl py_repr json_dumps "123456")
             eq_refl).
  - exact (proj1 (proj2 (account_id_prefixed_once unit (serve insights_page)
                            urlparse_query parse_qsl py_repr json_dumps
                            "act_123456"))
             eq_refl).
Defined.

End OnTheSimulatedUpstream.

Section OnSampleRecords.

Import data_processor processor.

Lemma underscore_sanitize_purchase :
  underscore_sanitize "purchase" = "purchase"%string.
Proof. reflexivity. Qed.

Lemma flattening_correct_witness :
  flatten_record underscore_sanitize
    [("spend", JStr "12.50");
     ("actions", JArr [JObj [("action_type", JStr "purchase");
                             ("value", JStr "5")]])]
  = [("spend", JStr "12.50"); ("action_purchase", JStr "5")]
  /\ Dict.get "action_purchase"
       (flatten_record underscore_sanitize
          [("spend", JStr "12.50");
           ("actions", JArr [JObj [("action_type", JStr "purchase");
                                   ("value", JStr "5")]])])
     = Some (JStr "5").
Proof.
  split; [reflexivity|].
  exact (proj1 (proj1 (flattening_correct underscore_sanitize
                         underscore_sanitize_purchase)
                  [("spend", JStr "12.50");
                   ("actions", JArr [JObj [("action_type", JStr "purchase");
                                           ("value", JStr "5")]])]
                  eq_refl)).
Defined.

(** A Record that already has the key [action_purchase]: the key is outside
    the action-bearing set, and flattening changes its value. *)
Lemma pass_through_collision_counterexample :
  is_action_key "action_purchase" = false
  /\ Dict.get "action_purchase"
       [("action_purchase", JStr "old");
        ("actions", JArr [JObj [("action_type", JStr "purchase");
                                ("value", JStr "5")]])]
     = Some (JStr "old")
  /\ Dict.get "action_purchase"
       (flatten_record underscore_sanitize
          [("action_purchase", JStr "old");
           ("actions", JArr [JObj [("action_type", JStr "purchase");
                                   ("value", JStr "5")]])])
     = Some (JStr "5").
Proof.
  repeat split; reflexivity.
Qed.

Lemma malformed_entry_skipped_witness :
  flatten_record underscore_sanitize
    [("spend", JStr "1.5");
     ("actions", JArr [JObj [("action_type", JStr "lead"); ("value", JStr "2")];
                       JObj [("value", JStr "3")]])]
  = [("spend", JStr "1.5"); ("action_lead", JStr "2")].
Proof.
  assert (Hbad : missing_field (JObj [("value", JStr "3")])).
  { eexists. split; [reflexivity|]. left. reflexivity. }
  pose proof (proj1 (malformed_entry_skipped underscore_sanitize
                [("spend", JStr "1.5"); ("actions", JNull)] "actions"
                [JObj [("action_type", JStr "lead"); ("value", JStr "2")]]
                [] (JObj [("value", JStr "3")]) [] eq_refl Hbad)) as H.
  cbn [Dict.set String.eqb Ascii.eqb Bool.eqb app] in H.
  rewrite H. reflexivity.
Defined.

End OnSampleRecords.

(** ** Further properties of the client *)

Section ClientFacts.

Import facebook_client upstream runs.

(** X1. The constructor raises ValueError exactly when neither the argument
    nor the environment gives a non-empty token; a non-empty argument wins
    over the environment; and a client it returns has a non-empty token and
    the Graph URL followed by its version as base URL. *)
Theorem client_needs_token (env_token access_token : option string)
    (version : string) :
  (forall t, access_token = Some t -> t <> EmptyString ->
     new_client env_token access_token version
     = Return (Client version ("https://graph.facebook.com/" ++ version) t))
  /\ (forall t, truthy_token access_token = None ->
        env_token = Some t -> t <> EmptyString ->
        new_client env_token access_token version
        = Return (Client version ("https://graph.facebook.com/" ++ version) t))
  /\ ((exists msg,
         new_client env_token access_token version = Raise (ValueError msg))
      <-> truthy_token access_token = None /\ truthy_token env_token = None)
  /\ (forall c,
        new_client env_token access_token version = Return c ->
        _access_token c <> EmptyString
        /\ api_version c = version
        /\ base_url c = ("https://graph.facebook.com/" ++ api_version c)%string).
Proof.
  unfold new_client. split; [|split; [|split]].
  - intros t -> Ht. destruct t; [now destruct Ht | reflexivity].
  - intros t -> -> Ht. destruct t; [now destruct Ht | reflexivity].
  - split.
    + intros [msg H].
      destruct access_token as [[|a s]|]; destruct env_token as [[|b t]|];
        cbn in H |- *; try discriminate; auto.
    + intros [-> H]. destruct env_token as [[|b t]|]; cbn in H |- *;
        try discriminate; eauto.
  - intros c H.
    destruct access_token as [[|a s]|]; destruct env_token as [[|b t]|];
      cbn in H; try discriminate; injection H as <-; cbn;
      repeat split; discriminate.
Qed.

(** [dict(pairs)]: when the pairs repeat a key, the mapping holds the value
    of the last pair with that key, and no key twice. *)
Lemma of_pairs_last_wins (l : list (string * string)) (k : string) :
  Dict.get k (Dict.of_pairs l) = option_map JStr (last_value k l)
  /\ NoDup (Dict.keys (Dict.of_pairs l)).
Proof.
  unfold Dict.of_pairs, last_value. split.
  - induction l as [|[k' v'] l IH] using rev_ind; [reflexivity|].
    rewrite fold_left_app, rev_app_distr. cbn [fold_left rev app find fst snd].
    destruct (String.eqb k k') eqn:E.
    + apply String.eqb_eq in E. subst k'. apply DictFacts.get_set_same.
    + apply String.eqb_neq in E. now rewrite DictFacts.get_set_other.
  - induction l as [|[k' v'] l IH] using rev_ind; [constructor|].
    rewrite fold_left_app. cbn [fold_left fst snd].
    generalize dependent (fold_left
      (fun (d : dict) (kv : string * string) =>
         Dict.set (fst kv) (JStr (snd kv)) d) l []).
    intros d. clear l. unfold Dict.keys.
    induction d as [|[k0 v0] d IHd]; cbn [Dict.set map fst]; intros Hd.
    + repeat constructor. intros [].
    + inversion Hd as [|? ? Hnot Hrest]; subst.
      destruct (String.eqb k' k0) eqn:E; cbn [map fst].
      * apply String.eqb_eq in E. subst k0. now constructor.
      * constructor; [|now apply IHd].
        intros Hin. apply Hnot. clear -Hin E.
        induction d as [|[k1 v1] d IH]; cbn [Dict.set map fst] in *.
        -- destruct Hin as [->|[]]. now rewrite String.eqb_refl in E.
        -- destruct (String.eqb k' k1) eqn:E1; cbn [map fst] in Hin.
           ++ apply String.eqb_eq in E1. subst k1.
              destruct Hin as [->|Hin]; [now rewrite String.eqb_refl in E|].
              now right.
           ++ destruct Hin as [->|Hin]; [now left | right; auto].
Qed.

End ClientFacts.

(** ** Further properties of the pager *)

Section RunFacts.

Import facebook_client upstream runs.

Variable World : Type.
Variable requests_get : request -> World -> get_outcome * World.
Variable urlparse_query : json -> result string.
Variable parse_qsl : string -> list (string * string).
Variable py_repr : json -> string.

Variable self : FacebookAdsClient.
Variable endpoint : string.

Local Abbreviation make_request :=
  (_make_request World requests_get py_repr self endpoint).
Local Abbreviation follow :=
  (follow_pages World requests_get urlparse_query parse_qsl py_repr).
Local Abbreviation paginated :=
  (_make_paginated_request World requests_get urlparse_query parse_qsl
     py_repr).
Local Abbreviation rq_for := (request_for self endpoint).

(** X4. One call of [_make_request] issues exactly one GET: to the base URL
    followed by the endpoint, with a timeout of 30, with the client's token
    as [access_token] whatever the caller passed under that key, and with
    every other parameter of the caller as it was given. *)
Theorem one_get_per_request (params : option dict) (st : state World) :
  exists rq o,
    exchanges (snd (make_request params st)) = exchanges st ++ [(rq, o)]
    /\ requests_get rq (world st) = (o, world (snd (make_request params st)))
    /\ authenticated self endpoint rq
    /\ forall k,
         k <> "access_token"%string ->
         Dict.get k (req_params rq) = Dict.get k (params_or_empty params).
Proof.
  exists (rq_for (params_or_empty params)),
         (fst (requests_get (rq_for (params_or_empty params)) (world st))).
  rewrite make_request_run. cbn [fst snd exchanges world].
  split; [reflexivity|]. split; [now destruct (requests_get _ _)|].
  split; [|intros k Hk; unfold request_for; cbn [req_params];
           now apply DictFacts.get_set_other].
  unfold authenticated, request_for. cbn [req_url req_params req_timeout].
  now rewrite DictFacts.get_set_same.
Qed.

Lemma adds_only_request (P : request * get_outcome -> Prop) (A : Type)
    (params : option dict) (k : json -> M World A) (st : state World) :
  (forall p w, P (rq_for p, fst (requests_get (rq_for p) w))) ->
  (forall j st', adds_only World P A st' (k j st')) ->
  adds_only World P A st (bind (make_request params) k st).
Proof.
  intros HP Hk. unfold bind. rewrite make_request_run.
  set (rq := rq_for (params_or_empty params)).
  pose proof (HP (params_or_empty params) (world st)) as Hx. fold rq in Hx.
  destruct (requests_get rq (world st)) as [o w1]. cbn [fst snd] in *.
  assert (Hone : forall res : result A,
    adds_only World P A st (res, State w1 (exchanges st ++ [(rq, o)]))).
  { intros res. exists [(rq, o)]. split; [reflexivity|]. now constructor. }
  destruct o as [r|detail]; [|apply Hone].
  destruct (raise_for_status r); [apply Hone|].
  destruct (json_body r) as [j|]; [|apply Hone].
  destruct (Hk j (State w1 (exchanges st ++ [(rq, Responded r)])))
    as (new & Hlog & Hnew).
  exists ((rq, Responded r) :: new). split.
  - rewrite Hlog. cbn [exchanges]. now rewrite <- app_assoc.
  - now constructor.
Qed.

Lemma adds_only_lift (P : request * get_outcome -> Prop) (A B : Type)
    (x : result A) (k : A -> M World B) (st : state World) :
  (forall a, adds_only World P B st (k a st)) ->
  adds_only World P B st (bind (lift x) k st).
Proof.
  intros Hk. unfold bind, lift.
  destruct x; auto; exists []; cbn; rewrite app_nil_r; auto.
Qed.

Lemma adds_only_follow (P : request * get_outcome -> Prop) (fuel : nat) :
  (forall p w, P (rq_for p, fst (requests_get (rq_for p) w))) ->
  forall (resp : json) (acc : list json) (st : state World),
    adds_only World P _ st (follow fuel self endpoint resp acc st).
Proof.
  intros HP. induction fuel as [|fuel IH]; intros resp acc st;
    cbn [follow_pages].
  - exists []. cbn. rewrite app_nil_r. auto.
  - apply adds_only_lift. intros [|].
    + apply adds_only_lift. intros p.
      apply adds_only_request; [exact HP|]. intros j st'.
      apply adds_only_lift. intros acc'. apply IH.
    + exists []. cbn. rewrite app_nil_r. auto.
Qed.

Lemma adds_only_paginated (P : request * get_outcome -> Prop) (fuel : nat)
    (params : option dict) (st : state World) :
  (forall p w, P (rq_for p, fst (requests_get (rq_for p) w))) ->
  adds_only World P _ st (paginated fuel self endpoint params st).
Proof.
  intros HP. unfold _make_paginated_request.
  apply adds_only_request; [exact HP|]. intros j st'.
  apply adds_only_lift. intros acc.
  destruct (adds_only_follow P fuel HP j acc st') as (new & Hlog & Hnew).
  unfold bind.
  destruct (follow fuel self endpoint j acc st') as [[all|x|] st2];
    cbn [fst snd] in *; exists new; auto.
Qed.

(** X3. Every GET of a paginated fetch, the first and each follow-up, goes
    to the base URL followed by the endpoint the fetch was called with,
    carries the client's own token as [access_token] and has a timeout of
    30: the host, the path and the token of a [next] URL are never used. *)
Theorem every_get_is_authenticated (fuel : nat) (params : option dict)
    (st : state World) :
  exists new,
    exchanges (snd (paginated fuel self endpoint params st))
    = exchanges st ++ new
    /\ Forall (fun x => authenticated self endpoint (fst x)) new.
Proof.
  apply adds_only_paginated. intros p w. cbn [fst].
  unfold authenticated, request_for. cbn [req_url req_params req_timeout].
  now rewrite DictFacts.get_set_same.
Qed.


Lemma stops_nothing (A : Type) (st : state World) (res : result A) :
  stops World py_repr A st (res, st).
Proof.
  exists []. cbn [fst snd]. split; [now rewrite app_nil_r|].
  exists [], []. repeat split; auto.
Qed.

Lemma stops_failed (A : Type) (st : state World) (w : World) (rq : request)
    (o : get_outcome) (x : exn) :
  exchange_error py_repr o = Some x ->
  stops World py_repr A st
    (Raise x, State w (exchanges st ++ [(rq, o)])).
Proof.
  intros Hx. exists [(rq, o)]. split; [reflexivity|].
  exists [], [(rq, o)]. split; [reflexivity|]. split; [constructor|].
  right. exists rq, o, x. auto.
Qed.

Lemma stops_request (A : Type) (params : option dict)
    (k : json -> M World A) (st : state World) :
  (forall j st', stops World py_repr A st' (k j st')) ->
  stops World py_repr A st (bind (make_request params) k st).
Proof.
  intros Hk. unfold bind. rewrite make_request_run.
  set (rq := rq_for (params_or_empty params)).
  destruct (requests_get rq (world st)) as [o w1]. cbn [fst snd].
  destruct o as [r|detail]; [|now apply stops_failed].
  destruct (raise_for_status r) as [e|] eqn:Hr.
  { apply stops_failed. cbn. now rewrite Hr. }
  destruct (json_body r) as [j|] eqn:Hj.
  2:{ apply stops_failed. cbn. now rewrite Hr, Hj. }
  destruct (Hk j (State w1 (exchanges st ++ [(rq, Responded r)])))
    as (new & Hlog & good & tail & Hnew & Hgood & Htail).
  exists ((rq, Responded r) :: new). split.
  - rewrite Hlog. cbn [exchanges]. now rewrite <- app_assoc.
  - exists ((rq, Responded r) :: good), tail. split; [now rewrite Hnew|].
    split; [|exact Htail]. constructor; [|exact Hgood].
    cbn. now rewrite Hr, Hj.
Qed.

Lemma stops_lift (A B : Type) (x : result A) (k : A -> M World B)
    (st : state World) :
  (forall a, stops World py_repr B st (k a st)) ->
  stops World py_repr B st (bind (lift x) k st).
Proof.
  intros Hk. unfold bind, lift. destruct x; auto using stops_nothing.
Qed.

Lemma stops_follow (fuel : nat) :
  forall (resp : json) (acc : list json) (st : state World),
    stops World py_repr _ st (follow fuel self endpoint resp acc st).
Proof.
  induction fuel as [|fuel IH]; intros resp acc st; cbn [follow_pages].
  - apply stops_nothing.
  - apply stops_lift. intros [|].
    + apply stops_lift. intros p. apply stops_request. intros j st'.
      apply stops_lift. intros acc'. apply IH.
    + apply stops_nothing.
Qed.

Lemma stops_paginated (fuel : nat) (params : option dict)
    (st : state World) :
  stops World py_repr _ st (paginated fuel self endpoint params st).
Proof.
  unfold _make_paginated_request. apply stops_request. intros j st'.
  apply stops_lift. intros acc.
  destruct (stops_follow fuel j acc st')
    as (new & Hlog & good & tail & Hnew & Hgood & Htail).
  unfold bind.
  destruct (follow fuel self endpoint j acc st') as [[all|x|] st2];
    cbn [fst snd] in *; exists new; (split; [exact Hlog|]);
    exists good, tail; (split; [exact Hnew|]); (split; [exact Hgood|]);
    destruct Htail as [->|(rq & o & y & -> & Hy & Hres)]; auto;
    try discriminate.
  right. exists rq, o, y. injection Hres as ->. auto.
Qed.

(** X2. A paginated fetch stops at the first GET that fails, whatever the
    failure: a network failure, a 4xx or 5xx status, or a body that does
    not decode.  If some GET of the fetch failed, it is the last GET the
    fetch issued, every GET before it went well, and the fetch raises the
    exception of that GET, so no row is returned. *)
Theorem failed_exchange_ends_run (fuel : nat) (params : option dict)
    (st : state World) (new : list (request * get_outcome)) (rq : request)
    (o : get_outcome) (x : exn) :
  let out := paginated fuel self endpoint params st in
  exchanges (snd out) = exchanges st ++ new ->
  In (rq, o) new ->
  exchange_error py_repr o = Some x ->
  fst out = Raise x
  /\ exists before,
       new = before ++ [(rq, o)]
       /\ Forall (fun y => exchange_error py_repr (snd y) = None) before.
Proof.
  intros out Hlog Hin Hx.
  destruct (stops_paginated fuel params st)
    as (new' & Hlog' & good & tail & Hnew & Hgood & Htail).
  fold out in Hlog', Htail. rewrite Hlog in Hlog'.
  apply app_inv_head in Hlog'. subst new'. subst new.
  apply in_app_or in Hin as [Hin|Hin].
  - rewrite Forall_forall in Hgood. specialize (Hgood _ Hin).
    cbn in Hgood. congruence.
  - destruct Htail as [->|(rq' & o' & y & -> & Hy & Hres)]; [destruct Hin|].
    destruct Hin as [Heq|[]]. injection Heq as -> ->.
    split; [congruence|]. exists good. auto.
Qed.

(** What a run does does not depend on the fuel left over. *)
Lemma follow_more_fuel (fuel : nat) :
  forall (fuel' : nat) (resp : json) (acc : list json) (st : state World),
    (fuel <= fuel')%nat ->
    fst (follow fuel self endpoint resp acc st) <> Diverged ->
    follow fuel' self endpoint resp acc st
    = follow fuel self endpoint resp acc st.
Proof.
  induction fuel as [|fuel IH]; intros fuel' resp acc st Hle Hend.
  - now destruct Hend.
  - destruct fuel' as [|fuel']; [lia|]. cbn [follow_pages] in *.
    unfold bind, lift in *.
    destruct (has_next resp) as [[|]| |]; try reflexivity.
    destruct (next_params urlparse_query parse_qsl resp) as [p| |];
      try reflexivity.
    destruct (make_request (Some p) st) as [[j| |] st1]; try reflexivity.
    destruct (extend_data acc j) as [acc'| |]; try reflexivity.
    apply IH; [lia | exact Hend].
Qed.

(** Once a paginated fetch has returned or raised within some bound
    on the number of loop tests, it does the same within every larger
    bound: same value or exception, same GETs. *)
Lemma outcome_independent_of_fuel (fuel fuel' : nat)
    (params : option dict) (st : state World) :
  (fuel <= fuel')%nat ->
  fst (paginated fuel self endpoint params st) <> Diverged ->
  paginated fuel' self endpoint params st
  = paginated fuel self endpoint params st.
Proof.
  intros Hle. unfold _make_paginated_request, bind, lift.
  destruct (make_request params st) as [[j| |] st1]; try reflexivity.
  destruct (extend_data [] j) as [acc| |]; try reflexivity.
  intros Hend.
  rewrite (follow_more_fuel fuel fuel' j acc st1 Hle); [reflexivity|].
  intros H. apply Hend.
  destruct (follow fuel self endpoint j acc st1) as [[all| |] st2];
    cbn in H |- *; congruence.
Qed.


(** X9. Apart from a JSON object holding an [error] object, every body of
    an error response gives the generic message: a body that does not
    decode, an object without [error], an [error] that is not an object
    (the exception of [error_detail.get] is swallowed), and a body that is
    a list, a text, a number, a boolean or null. *)
Theorem format_error_fallback (e : string) (r : response) :
  (forall body detail,
      json_body r = Some (JObj body) ->
      Dict.get "error" body <> Some (JObj detail)) ->
  format_error py_repr e r = ("Facebook API request failed: " ++ e)%string.
Proof.
  intros Hno. unfold format_error.
  destruct (json_body r) as [[| | | |s|l|body]|]; try reflexivity.
  - cbn [py_contains]. destruct (is_substring "error" s); reflexivity.
  - cbn [py_contains]. destruct (existsb (is_str "error") l); reflexivity.
  - cbn [py_contains py_getitem]. unfold Dict.mem.
    destruct (Dict.get "error" body) as [[| | | | | |detail]|] eqn:E;
      try reflexivity.
    now destruct (Hno body detail eq_refl).
Qed.

Lemma first_request (fuel : nat) (params : option dict)
    (st : state World) :
  exists rest,
    exchanges (snd (paginated fuel self endpoint params st))
    = exchanges st
      ++ (rq_for (params_or_empty params),
          fst (requests_get (rq_for (params_or_empty params)) (world st)))
         :: rest.
Proof.
  unfold _make_paginated_request, bind at 1. rewrite make_request_run.
  set (rq := rq_for (params_or_empty params)).
  destruct (requests_get rq (world st)) as [[r|detail] w1]; cbn [fst snd];
    [|exists []; reflexivity].
  destruct (raise_for_status r); [exists []; reflexivity|].
  destruct (json_body r) as [j|]; [|exists []; reflexivity].
  unfold bind, lift.
  destruct (extend_data [] j) as [acc| |]; try (exists []; reflexivity).
  destruct (follow_extends World requests_get urlparse_query parse_qsl py_repr
              self endpoint fuel j acc
              (State w1 (exchanges st ++ [(rq, Responded r)])))
    as (new & Hnew).
  unfold ret.
  destruct (follow fuel self endpoint j acc _) as [[all| |] st2];
    cbn [fst snd exchanges] in *; exists new; rewrite Hnew;
    now rewrite <- app_assoc.
Qed.

(** The run of a fetch whose first GET is answered with a page. *)
Lemma paginated_first_page (fuel : nat) (params : option dict)
    (w w' : World) (log : list (request * get_outcome)) (r : response)
    (j : json) :
  requests_get (rq_for (params_or_empty params)) w = (Responded r, w') ->
  served r ->
  json_body r = Some j ->
  paginated fuel self endpoint params (State w log)
  = bind (lift (extend_data [] j)) (fun all_data =>
      bind (follow fuel self endpoint j all_data) (fun all_data' =>
        ret (JObj [("data", JArr all_data')])))
      (State w' (log ++ [(rq_for (params_or_empty params), Responded r)])).
Proof.
  intros Hget Hs Hj. unfold _make_paginated_request, bind at 1.
  now rewrite (make_request_served World requests_get py_repr self endpoint
                 params w w' log r j Hget Hs Hj).
Qed.

(** X6. A page whose [data] is null, a boolean or a number cannot be
    merged: answered with such a first page, the fetch raises TypeError
    after that one GET, whatever its [paging] says. *)
Theorem data_not_iterable (fuel : nat) (params : option dict)
    (w w' : World) (log : list (request * get_outcome)) (r : response)
    (body : dict) (v : json) :
  requests_get (rq_for (params_or_empty params)) w = (Responded r, w') ->
  served r ->
  json_body r = Some (JObj body) ->
  Dict.get "data" body = Some v ->
  not_iterable v ->
  paginated fuel self endpoint params (State w log)
  = (Raise TypeError,
     State w' (log ++ [(rq_for (params_or_empty params), Responded r)])).
Proof.
  intros Hget Hs Hj Hdata Hv.
  rewrite (paginated_first_page fuel params w w' log r _ Hget Hs Hj).
  unfold bind, lift, extend_data. cbn [py_get rbind]. rewrite Hdata.
  destruct v; try destruct Hv; reflexivity.
Qed.

(** X7. A response whose body is JSON but not an object (a list, a text, a
    number, a boolean, null) has no [get]: answered with it at the first
    GET, the fetch raises AttributeError after that one GET. *)
Theorem body_not_an_object (fuel : nat) (params : option dict)
    (w w' : World) (log : list (request * get_outcome)) (r : response)
    (j : json) :
  requests_get (rq_for (params_or_empty params)) w = (Responded r, w') ->
  served r ->
  json_body r = Some j ->
  ~ is_object j ->
  paginated fuel self endpoint params (State w log)
  = (Raise AttributeError,
     State w' (log ++ [(rq_for (params_or_empty params), Responded r)])).
Proof.
  intros Hget Hs Hj Hno.
  rewrite (paginated_first_page fuel params w w' log r _ Hget Hs Hj).
  unfold bind, lift, extend_data.
  destruct j; try reflexivity. now destruct Hno.
Qed.

Lemma has_next_not_a_container (body : dict) (v : json) :
  Dict.get "paging" body = Some v ->
  not_iterable v ->
  has_next (JObj body) = Raise TypeError.
Proof.
  intros Hpaging Hv. unfold has_next.
  cbn [py_contains py_getitem rbind]. unfold Dict.mem. rewrite Hpaging.
  cbn [rbind]. destruct v; try destruct Hv; reflexivity.
Qed.

(** The run of the pager up to a page whose [paging] cannot be tested, from
    any pending request. *)
Lemma reach_run (w w' : World) (rq : request) (pages : list dict)
    (xs : list (request * get_outcome)) (final : dict) :
  reaches World requests_get urlparse_query parse_qsl self endpoint
    w rq pages w' xs final ->
  forall (v : json) (params : option dict) (acc : list json)
         (log : list (request * get_outcome)) (fuel : nat),
    rq = rq_for (params_or_empty params) ->
    Forall mergeable pages ->
    mergeable final ->
    Dict.get "paging" final = Some v ->
    not_iterable v ->
    (List.length pages < fuel)%nat ->
    bind (make_request params) (fun resp =>
      bind (lift (extend_data acc resp)) (fun acc' =>
        follow fuel self endpoint resp acc')) (State w log)
    = (Raise TypeError, State w' (log ++ xs)).
Proof.
  induction 1 as [w w' rq r final Hget Hs Hj
                 | w w1 w' rq r body u q pages xs final Hget Hs Hj Hnext Hq
                     Hc IH];
    intros v params acc log fuel -> Hok Hfinal Hpaging Hv Hfuel;
    destruct fuel as [|fuel]; simpl in Hfuel; try lia;
    unfold bind at 1;
    rewrite (make_request_served World requests_get py_repr self endpoint
               _ _ _ _ _ _ Hget Hs Hj);
    unfold bind at 1, lift at 1.
  - rewrite (extend_data_mergeable _ _ Hfinal).
    cbn [follow_pages]. unfold bind, lift.
    now rewrite (has_next_not_a_container _ _ Hpaging Hv).
  - inversion Hok as [|? ? Hbody Hrest]; subst.
    rewrite (extend_data_mergeable _ _ Hbody).
    cbn [follow_pages]. unfold bind at 1, lift at 1.
    rewrite (has_next_link _ _ Hnext).
    unfold bind at 1, lift at 1.
    rewrite (next_params_link urlparse_query parse_qsl _ _ Hnext), Hq.
    cbn [rbind].
    rewrite (IH v (Some (Dict.of_pairs (parse_qsl q))) _ _ fuel eq_refl Hrest
               Hfinal Hpaging Hv) by lia.
    now rewrite <- app_assoc.
Qed.

Lemma reaches_length (w w' : World) (rq : request) (pages : list dict)
    (xs : list (request * get_outcome)) (final : dict) :
  reaches World requests_get urlparse_query parse_qsl self endpoint
    w rq pages w' xs final ->
  List.length xs = S (List.length pages).
Proof. induction 1; simpl; auto. Qed.

(** X8. A page whose [paging] is null, a boolean or a number ends the
    fetch with TypeError, raised by the loop test ['next' in
    response['paging']], at whatever position the page comes: after any
    number of pages chained by [next] links, the fetch raises TypeError
    once that page has been fetched and merged, the rows of all the pages
    are lost, and no further GET is issued.  The loop itself, tested on
    such a page with any rows accumulated, raises TypeError and issues no
    GET. *)
Theorem paging_not_a_container (fuel : nat) (params : option dict)
    (w w' : World) (log xs : list (request * get_outcome))
    (pages : list dict) (final : dict) (v : json) :
  reaches World requests_get urlparse_query parse_qsl self endpoint
    w (rq_for (params_or_empty params)) pages w' xs final ->
  Forall mergeable pages ->
  mergeable final ->
  Dict.get "paging" final = Some v ->
  not_iterable v ->
  (List.length pages < fuel)%nat ->
  paginated fuel self endpoint params (State w log)
  = (Raise TypeError, State w' (log ++ xs))
  /\ List.length xs = S (List.length pages)
  /\ forall fuel' acc st,
       follow (S fuel') self endpoint (JObj final) acc st
       = (Raise TypeError, st).
Proof.
  intros Hc Hok Hfinal Hpaging Hv Hfuel. split; [|split].
  - pose proof (reach_run _ _ _ _ _ _ Hc v params [] log fuel eq_refl Hok
                  Hfinal Hpaging Hv Hfuel) as H.
    unfold _make_paginated_request. unfold bind in *.
    destruct (make_request params (State w log)) as [[resp| |] st1];
      try discriminate; try (injection H as -> ->; reflexivity).
    unfold lift in *.
    destruct (extend_data [] resp) as [acc| |]; try discriminate;
      try (injection H as -> ->; reflexivity).
    now rewrite H.
  - eapply reaches_length; eauto.
  - intros fuel' acc st. cbn [follow_pages]. unfold bind, lift.
    now rewrite (has_next_not_a_container _ _ Hpaging Hv).
Qed.

(** X5. Nothing bounds the number of pages.  Against an upstream that
    answers every GET with a page naming a next page, the fetch never
    returns and never raises: within any bound [fuel] on the loop tests it
    is still running after [fuel + 1] GETs. *)
Theorem endless_paging_never_returns (fuel : nat) (params : option dict)
    (st : state World) :
  (forall rq w, exists r body u q,
      fst (requests_get rq w) = Responded r
      /\ served r
      /\ json_body r = Some (JObj body)
      /\ mergeable body
      /\ next_of body = Some (JStr u)
      /\ urlparse_query (JStr u) = Return q) ->
  fst (paginated fuel self endpoint params st) = Diverged
  /\ List.length (exchanges (snd (paginated fuel self endpoint params st)))
     = (List.length (exchanges st) + S fuel)%nat.
Proof.
  intros Hup.
  assert (Hreq : forall params acc st (k : json -> list json -> M World (list json)) n,
    (forall body acc' st',
        mergeable body -> (exists u q, next_of body = Some (JStr u)
                            /\ urlparse_query (JStr u) = Return q) ->
        List.length (exchanges st') = S (List.length (exchanges st)) ->
        fst (k (JObj body) acc' st') = Diverged
        /\ List.length (exchanges (snd (k (JObj body) acc' st')))
           = (List.length (exchanges st') + n)%nat) ->
    fst (bind (make_request params) (fun resp =>
           bind (lift (extend_data acc resp)) (fun acc' => k resp acc')) st)
    = Diverged
    /\ List.length (exchanges (snd
         (bind (make_request params) (fun resp =>
            bind (lift (extend_data acc resp)) (fun acc' => k resp acc')) st)))
       = (List.length (exchanges st) + S n)%nat).
  { intros params0 acc st0 k n Hk. unfold bind at 1 3.
    rewrite make_request_run.
    destruct (Hup (rq_for (params_or_empty params0)) (world st0))
      as (r & body & u & q & Hget & Hs & Hj & Hdata & Hnext & Hq).
    rewrite Hget. rewrite raise_for_status_none by (unfold served in Hs; lia).
    rewrite Hj. unfold bind, lift.
    rewrite (extend_data_mergeable acc body Hdata).
    destruct (Hk body (acc ++ rows_of body)
                (State (snd (requests_get (rq_for (params_or_empty params0))
                               (world st0)))
                   (exchanges st0
                    ++ [(rq_for (params_or_empty params0), Responded r)])))
      as [Hd Hl]; eauto.
    { cbn [exchanges]. rewrite length_app. cbn. lia. }
    split; [exact Hd|]. rewrite Hl. cbn [exchanges]. rewrite length_app.
    cbn. lia. }
  assert (Hloop : forall fuel body acc st,
    mergeable body ->
    (exists u q, next_of body = Some (JStr u)
                 /\ urlparse_query (JStr u) = Return q) ->
    fst (follow fuel self endpoint (JObj body) acc st) = Diverged
    /\ List.length (exchanges (snd (follow fuel self endpoint (JObj body) acc st)))
       = (List.length (exchanges st) + fuel)%nat).
  { induction fuel0 as [|n IH]; intros body acc st0 Hdata (u & q & Hnext & Hq).
    - cbn. split; [reflexivity | lia].
    - cbn [follow_pages]. unfold bind at 1 3, lift at 1 3.
      rewrite (has_next_link _ _ Hnext).
      unfold bind at 1 3, lift at 1 3.
      rewrite (next_params_link urlparse_query parse_qsl _ _ Hnext), Hq.
      cbn [rbind].
      apply (Hreq (Some (Dict.of_pairs (parse_qsl q))) acc st0
               (fun resp acc' => follow n self endpoint resp acc') n).
      intros body' acc' st' Hb Hn _. now apply IH. }
  unfold _make_paginated_request.
  destruct (Hreq params [] st
              (fun resp acc' => follow fuel self endpoint resp acc') fuel)
    as [Hd Hl].
  { intros body acc' st' Hb Hn _. now apply Hloop. }
  unfold bind in *.
  destruct (make_request params st) as [[j| |] st1]; cbn [fst snd] in *;
    try discriminate; auto.
  unfold lift in *.
  destruct (extend_data [] j) as [acc| |]; cbn [fst snd] in *;
    try discriminate; auto.
  destruct (follow fuel self endpoint j acc st1) as [[all| |] st2];
    cbn [fst snd] in *; try discriminate; auto.
Qed.

(** X10. The parameters of a follow-up request are
    [dict(parse_qsl(query))] of the [next] URL: when the query repeats a
    key, the request carries the value of its last occurrence only, and the
    mapping has no key twice. *)
Theorem next_params_last_wins (body : dict) (u q : string) :
  next_of body = Some (JStr u) ->
  urlparse_query (JStr u) = Return q ->
  exists p,
    next_params urlparse_query parse_qsl (JObj body) = Return p
    /\ (forall k, Dict.get k p = option_map JStr (last_value k (parse_qsl q)))
    /\ NoDup (Dict.keys p).
Proof.
  intros Hnext Hq. exists (Dict.of_pairs (parse_qsl q)).
  rewrite (next_params_link urlparse_query parse_qsl _ _ Hnext), Hq.
  split; [reflexivity|]. split.
  - intros k. apply of_pairs_last_wins.
  - apply (of_pairs_last_wins (parse_qsl q) EmptyString).
Qed.

End RunFacts.

(** ** Further properties of the tools *)

Section MoreToolFacts.

Import facebook_client upstream runs.

Variable World : Type.
Variable requests_get : request -> World -> get_outcome * World.
Variable urlparse_query : json -> result string.
Variable parse_qsl : string -> list (string * string).
Variable py_repr : json -> string.
Variable json_dumps : json -> string.
Variable env_token : option string.
Variable process_insights : json -> result json.
Variable convert_numeric_fields : json -> result json.

Local Abbreviation paginated :=
  (_make_paginated_request World requests_get urlparse_query parse_qsl
     py_repr).
Local Abbreviation client_insights :=
  (facebook_client.get_account_insights World requests_get urlparse_query
     parse_qsl py_repr json_dumps).
Local Abbreviation tool_insights :=
  (server.get_account_insights World requests_get urlparse_query parse_qsl
     py_repr json_dumps env_token process_insights convert_numeric_fields).
Local Abbreviation tool_campaign_insights :=
  (server.get_campaign_insights World requests_get urlparse_query parse_qsl
     py_repr json_dumps env_token process_insights convert_numeric_fields).
Local Abbreviation tool_accounts :=
  (server.list_ad_accounts World requests_get urlparse_query parse_qsl py_repr
     env_token).
Local Abbreviation tool_campaigns :=
  (server.list_campaigns World requests_get urlparse_query parse_qsl py_repr
     json_dumps env_token).
Local Abbreviation tool_ad_sets :=
  (server.list_ad_sets World requests_get urlparse_query parse_qsl py_repr
     json_dumps env_token).
Local Abbreviation tool_ads :=
  (server.list_ads World requests_get urlparse_query parse_qsl py_repr
     json_dumps env_token).

(** X11. The optional arguments of the insights query are tested for
    truth: an empty list of breakdowns or of ids and an empty time
    increment give the parameters their absence gives.  The [filtering]
    parameter is sent exactly when some id list is non-empty, and [fields],
    [level] and [limit] are always sent. *)
Theorem blank_arguments_are_absent (q : insights_query) (limit : Z) :
  insights_params json_dumps q limit
  = insights_params json_dumps (without_blanks q) limit
  /\ Dict.mem "filtering" (insights_params json_dumps q limit) = any_ids q
  /\ Dict.mem "breakdowns" (insights_params json_dumps q limit)
     = match absent_if_empty (breakdowns q) with
       | Some _ => true
       | None => false
       end
  /\ Dict.get "fields" (insights_params json_dumps q limit)
     = Some (JStr (String.concat "," (fields q)))
  /\ Dict.get "level" (insights_params json_dumps q limit)
     = Some (JStr (level q))
  /\ Dict.get "limit" (insights_params json_dumps q limit)
     = Some (JInt limit).
Proof.
  destruct q as [sd ed fs lv [[|b bs]|] [[|c t]|] [[|i1 l1]|] [[|i2 l2]|]
                   [[|i3 l3]|]];
    repeat split; reflexivity.
Qed.

(** X12. Without a token in the environment (none, or an empty one), every
    tool raises the constructor's ValueError and issues no GET. *)
Theorem tools_need_token (fuel : nat) (st : state World) :
  truthy_token env_token = None ->
  exists msg,
    tool_accounts fuel st = (Raise (ValueError msg), st)
    /\ (forall id sf, tool_campaigns fuel id sf st = (Raise (ValueError msg), st))
    /\ (forall id sf, tool_ad_sets fuel id sf st = (Raise (ValueError msg), st))
    /\ (forall id sf, tool_ads fuel id sf st = (Raise (ValueError msg), st))
    /\ (forall id q flag,
          tool_insights fuel id q flag st = (Raise (ValueError msg), st))
    /\ (forall id sd ed fs ti flag,
          tool_campaign_insights fuel id sd ed fs ti flag st
          = (Raise (ValueError msg), st)).
Proof.
  intros Henv.
  assert (Hc : exists msg, server._get_client env_token = Raise (ValueError msg)).
  { unfold server._get_client, new_client. cbn [truthy_token].
    rewrite Henv. eauto. }
  destruct Hc as [msg Hc]. exists msg.
  unfold server.list_ad_accounts, server.list_campaigns, server.list_ad_sets,
    server.list_ads, server.get_campaign_insights, server.get_account_insights,
    bind, lift.
  rewrite Hc. repeat split; reflexivity.
Qed.

(** The value of a tool that hands back [response.get('data', [])]. *)
Lemma rows_of_response (fuel : nat) (client : result FacebookAdsClient)
    (run : FacebookAdsClient -> M World json) (st st' : state World)
    (v : json) :
  (forall c, exists endpoint params, run c = paginated fuel c endpoint params) ->
  bind (lift client) (fun c =>
    bind (run c) (fun resp => lift (py_get resp "data" (JArr [])))) st
  = (Return v, st') ->
  exists c rows,
    client = Return c
    /\ run c st = (Return (JObj [("data", JArr rows)]), st')
    /\ v = JArr rows.
Proof.
  intros Hrun. unfold bind at 1, lift at 1.
  destruct client as [c| |]; try discriminate.
  unfold bind, lift. destruct (run c st) as [[resp| |] st1] eqn:E;
    try discriminate.
  destruct (Hrun c) as (ep & ps & Hc). rewrite Hc in E.
  destruct (paginated_shape World requests_get urlparse_query parse_qsl py_repr
              fuel c ep ps st st1 resp E) as [rows ->].
  cbn. intros H. injection H as <- <-. exists c, rows. rewrite Hc. auto.
Qed.

(** X13. A listing tool that returns returns a list, and the list is the
    rows the pager gathered: the client was built from the environment's
    token, its method returned [{'data': rows}], and the tool's value is
    [rows], untouched. *)
Theorem listing_returns_rows (fuel : nat) (st st' : state World) (v : json) :
  (tool_accounts fuel st = (Return v, st') ->
   exists c rows,
     server._get_client env_token = Return c
     /\ get_ad_accounts World requests_get urlparse_query parse_qsl py_repr
          fuel c st
        = (Return (JObj [("data", JArr rows)]), st')
     /\ v = JArr rows)
  /\ (forall id sf,
        tool_campaigns fuel id sf st = (Return v, st') ->
        exists c rows,
          server._get_client env_token = Return c
          /\ get_campaigns World requests_get urlparse_query parse_qsl py_repr
               json_dumps fuel c id (server.status_list sf) 100 st
             = (Return (JObj [("data", JArr rows)]), st')
          /\ v = JArr rows)
  /\ (forall id sf,
        tool_ad_sets fuel id sf st = (Return v, st') ->
        exists c rows,
          server._get_client env_token = Return c
          /\ get_ad_sets World requests_get urlparse_query parse_qsl py_repr
               json_dumps fuel c id (server.status_list sf) 100 st
             = (Return (JObj [("data", JArr rows)]), st')
          /\ v = JArr rows)
  /\ (forall id sf,
        tool_ads fuel id sf st = (Return v, st') ->
        exists c rows,
          server._get_client env_token = Return c
          /\ get_ads World requests_get urlparse_query parse_qsl py_repr
               json_dumps fuel c id (server.status_list sf) 100 st
             = (Return (JObj [("data", JArr rows)]), st')
          /\ v = JArr rows).
Proof.
  split; [|split; [|split]].
  - intros H.
    apply (rows_of_response fuel (server._get_client env_token)
             (fun c => get_ad_accounts World requests_get urlparse_query
                         parse_qsl py_repr fuel c) st st' v);
      [intros c; do 2 eexists; reflexivity | exact H].
  - intros id sf H.
    apply (rows_of_response fuel (server._get_client env_token)
             (fun c => get_campaigns World requests_get urlparse_query
                         parse_qsl py_repr json_dumps fuel c id
                         (server.status_list sf) 100) st st' v);
      [intros c; do 2 eexists; reflexivity | exact H].
  - intros id sf H.
    apply (rows_of_response fuel (server._get_client env_token)
             (fun c => get_ad_sets World requests_get urlparse_query
                         parse_qsl py_repr json_dumps fuel c id
                         (server.status_list sf) 100) st st' v);
      [intros c; do 2 eexists; reflexivity | exact H].
  - intros id sf H.
    apply (rows_of_response fuel (server._get_client env_token)
             (fun c => get_ads World requests_get urlparse_query
                         parse_qsl py_repr json_dumps fuel c id
                         (server.status_list sf) 100) st st' v);
      [intros c; do 2 eexists; reflexivity | exact H].
Qed.

(** X14. When the client's insights method raises (or has not ended), the
    insights tool does the same with either value of the flag, and in the
    same state: neither transform of the processor is run on a failed
    fetch. *)
Theorem insights_tool_propagates (fuel : nat) (account_id : string)
    (q : insights_query) (st st' : state World) (client : FacebookAdsClient)
    (res : result json) (flag : bool) :
  server._get_client env_token = Return client ->
  client_insights fuel client account_id q 100 st = (res, st') ->
  (forall resp, res <> Return resp) ->
  exists res' : result json,
    tool_insights fuel account_id q flag st = (res', st')
    /\ (forall e, res = Raise e -> res' = Raise e)
    /\ (res = Diverged -> res' = Diverged).
Proof.
  intros Hc Hrun Hno. unfold server.get_account_insights.
  unfold bind at 1, lift at 1. rewrite Hc. unfold bind. rewrite Hrun.
  destruct res as [resp|e|].
  - now destruct (Hno resp).
  - exists (Raise e). repeat split; congruence.
  - exists Diverged. repeat split; congruence.
Qed.


Lemma listing_first_get (fuel : nat) (c : FacebookAdsClient)
    (endpoint : string) (params : dict) (st : state World) :
  server._get_client env_token = Return c ->
  exists o rest,
    exchanges (snd
      (bind (lift (server._get_client env_token)) (fun c =>
         bind (paginated fuel c endpoint (Some params)) (fun resp =>
           lift (py_get resp "data" (JArr [])))) st))
    = exchanges st ++ (request_for c endpoint params, o) :: rest.
Proof.
  intros Hc. unfold bind at 1, lift at 1. rewrite Hc.
  destruct (first_request World requests_get urlparse_query parse_qsl py_repr
              c endpoint fuel (Some params) st) as (rest & Hrest).
  cbn [params_or_empty] in Hrest.
  exists (fst (requests_get (request_for c endpoint params) (world st))), rest.
  unfold bind, lift.
  destruct (paginated fuel c endpoint (Some params) st) as [[resp| |] st1];
    exact Hrest.
Qed.

(** X15. The first GET of [list_campaigns]: it goes to
    [/<prefixed id>/campaigns] under the client's base URL, with the
    client's token, a limit of 100, and the status filter as a JSON list of
    that one status under [effective_status]; without a filter, or with an
    empty one, no [effective_status] is sent. *)
Theorem list_campaigns_first_get (fuel : nat) (account_id : string)
    (status_filter : option string) (c : FacebookAdsClient)
    (st : state World) :
  server._get_client env_token = Return c ->
  exists rq o rest,
    exchanges (snd (tool_campaigns fuel account_id status_filter st))
    = exchanges st ++ (rq, o) :: rest
    /\ req_url rq
       = (base_url c ++ "/" ++ act_prefixed account_id ++ "/campaigns")%string
    /\ Dict.get "access_token" (req_params rq) = Some (JStr (_access_token c))
    /\ Dict.get "limit" (req_params rq) = Some (JInt 100)
    /\ Dict.get "effective_status" (req_params rq)
       = match status_filter with
         | Some (String a s) =>
             Some (JStr (json_dumps (JArr [JStr (String a s)])))
         | _ => None
         end.
Proof.
  intros Hc. unfold server.list_campaigns, get_campaigns.
  destruct (listing_first_get fuel c
              ("/" ++ act_prefixed account_id ++ "/campaigns")
              (listing_params json_dumps
                 "id,name,status,effective_status,objective,daily_budget,lifetime_budget,created_time,updated_time"
                 (server.status_list status_filter) 100) st Hc)
    as (o & rest & Hrest).
  eexists _, o, rest. split; [exact Hrest|].
  unfold request_for. cbn [req_url req_params].
  split; [reflexivity|]. split; [apply DictFacts.get_set_same|].
  destruct status_filter as [[|a s]|]; split; reflexivity.
Qed.


(** X16. The first GET of the insights tool, for either value of the flag:
    it goes to [/<prefixed id>/insights] with the client's token, a limit
    of 100, the fields joined by commas, the level asked for and the two
    dates as a JSON object under [time_range].  [get_campaign_insights]
    asks for the level [campaign] and sends no [breakdowns] and no
    [filtering]. *)
Theorem insights_first_get (fuel : nat) (account_id : string)
    (q : insights_query) (flag : bool) (c : FacebookAdsClient)
    (st : state World) :
  server._get_client env_token = Return c ->
  (exists rq o rest,
      exchanges (snd (tool_insights fuel account_id q flag st))
      = exchanges st ++ (rq, o) :: rest
      /\ req_url rq
         = (base_url c ++ "/" ++ act_prefixed account_id ++ "/insights")%string
      /\ Dict.get "access_token" (req_params rq)
         = Some (JStr (_access_token c))
      /\ Dict.get "limit" (req_params rq) = Some (JInt 100)
      /\ Dict.get "fields" (req_params rq)
         = Some (JStr (String.concat "," (fields q)))
      /\ Dict.get "level" (req_params rq) = Some (JStr (level q))
      /\ Dict.get "time_range" (req_params rq)
         = Some (JStr (json_dumps (JObj [("since", JStr (start_date q));
                                         ("until", JStr (end_date q))]))))
  /\ (forall sd ed fs ti,
        exists rq o rest,
          exchanges (snd (tool_campaign_insights fuel account_id sd ed fs ti
                            flag st))
          = exchanges st ++ (rq, o) :: rest
          /\ Dict.get "level" (req_params rq) = Some (JStr "campaign")
          /\ Dict.mem "breakdowns" (req_params rq) = false
          /\ Dict.mem "filtering" (req_params rq) = false).
Proof.
  intros Hc.
  assert (Hfirst : forall q',
    exists o rest,
      exchanges (snd (tool_insights fuel account_id q' flag st))
      = exchanges st
        ++ (request_for c ("/" ++ act_prefixed account_id ++ "/insights")
              (insights_params json_dumps q' 100), o) :: rest).
  { intros q'. unfold server.get_account_insights.
    unfold bind at 1, lift at 1. rewrite Hc.
    destruct (first_request World requests_get urlparse_query parse_qsl
                py_repr c ("/" ++ act_prefixed account_id ++ "/insights")
                fuel (Some (insights_params json_dumps q' 100)) st)
      as (rest & Hrest).
    cbn [params_or_empty] in Hrest. eexists _, rest.
    unfold facebook_client.get_account_insights.
    unfold bind.
    destruct (paginated fuel c _ (Some (insights_params json_dumps q' 100)) st)
      as [[resp| |] st1]; cbn [fst snd] in *; try exact Hrest.
    destruct flag; unfold lift; exact Hrest. }
  assert (Hother : forall q' k,
    k <> "access_token"%string ->
    Dict.get k (req_params
      (request_for c ("/" ++ act_prefixed account_id ++ "/insights")
         (insights_params json_dumps q' 100)))
    = Dict.get k (insights_params json_dumps q' 100)).
  { intros q' k Hk. unfold request_for. cbn [req_params].
    now apply DictFacts.get_set_other. }
  split.
  - destruct (Hfirst q) as (o & rest & Hlog).
    eexists _, o, rest. split; [exact Hlog|].
    split; [reflexivity|].
    split; [unfold request_for; cbn [req_params];
            apply DictFacts.get_set_same|].
    rewrite !Hother by discriminate.
    destruct q as [sd ed fs lv [[|b bs]|] [[|a t]|] [[|i1 l1]|] [[|i2 l2]|]
                     [[|i3 l3]|]]; repeat split; reflexivity.
  - intros sd ed fs ti. unfold server.get_campaign_insights.
    destruct (Hfirst (InsightsQuery sd ed fs "campaign" None ti None None None))
      as (o & rest & Hlog).
    eexists _, o, rest. split; [exact Hlog|].
    unfold Dict.mem. rewrite !Hother by discriminate.
    destruct ti as [[|a t]|]; repeat split; reflexivity.
Qed.

End MoreToolFacts.

(** ** The further properties on the simulated upstreams *)

Section OnMoreUpstreams.

Import facebook_client upstream runs simulated samples.

Local Abbreviation endpoint := "/act_1/insights"%string.

Lemma failed_exchange_ends_run_witness :
  fst (run broken_link 5) = Raise (TransportFailure "connection reset")
  /\ List.length (exchanges (snd (run broken_link 5))) = 2%nat.
Proof.
  destruct (failed_exchange_ends_run unit (serve broken_link) urlparse_query
              parse_qsl py_repr client endpoint 5 None (State tt [])
              (exchanges (snd (run broken_link 5)))
              (request_for client endpoint
                 [("access_token", JStr "T"); ("after", JStr "p9")])
              (Failed "connection reset")
              (TransportFailure "connection reset"))
    as (Hraise & before & Hnew & _).
  - reflexivity.
  - right. left. reflexivity.
  - reflexivity.
  - split; [exact Hraise | reflexivity].
Defined.

Lemma next_params_last_wins_witness :
  exists p,
    next_params urlparse_query parse_qsl
      (JObj [("paging",
              JObj [("next", JStr "https://h/x?limit=5&after=a&limit=9")])])
    = Return p
    /\ Dict.get "limit" p = Some (JStr "9")
    /\ Dict.get "after" p = Some (JStr "a").
Proof.
  destruct (next_params_last_wins urlparse_query parse_qsl
              [("paging",
                JObj [("next", JStr "https://h/x?limit=5&after=a&limit=9")])]
              "https://h/x?limit=5&after=a&limit=9" "limit=5&after=a&limit=9"
              eq_refl eq_refl)
    as (p & Hp & Hget & _).
  exists p. split; [exact Hp|].
  split; [exact (Hget "limit"%string) | exact (Hget "after"%string)].
Defined.

Lemma format_error_fallback_witness :
  format_error py_repr "400 Client Error"
    (Response 400 "Bad Request" insights_url
       (Some (JObj [("error", JStr "token expired")])))
  = "Facebook API request failed: 400 Client Error"%string.
Proof.
  apply format_error_fallback. cbn. intros body detail H.
  injection H as <-. discriminate.
Defined.

Lemma data_not_iterable_witness :
  run (only (JObj [("data", JNull)])) 3
  = (Raise TypeError,
     State tt [(request_for client endpoint [],
                Responded (Response 200 "OK" insights_url
                             (Some (JObj [("data", JNull)]))))]).
Proof.
  apply (data_not_iterable unit (serve (only (JObj [("data", JNull)])))
           urlparse_query parse_qsl py_repr client endpoint 3 None tt tt []
           (Response 200 "OK" insights_url (Some (JObj [("data", JNull)])))
           [("data", JNull)] JNull).
  - reflexivity.
  - unfold served. cbn. lia.
  - reflexivity.
  - reflexivity.
  - exact I.
Defined.

Lemma body_not_an_object_witness :
  fst (run (only (JArr [row "a"])) 3) = Raise AttributeError.
Proof.
  unfold run, fetch.
  rewrite (body_not_an_object unit (serve (only (JArr [row "a"])))
             urlparse_query parse_qsl py_repr client endpoint 3 None tt tt []
             (Response 200 "OK" insights_url (Some (JArr [row "a"])))
             (JArr [row "a"]) eq_refl).
  - reflexivity.
  - unfold served. cbn. lia.
  - reflexivity.
  - intros [].
Defined.

Lemma paging_not_a_container_witness :
  fst (run null_paging_third 5) = Raise TypeError
  /\ List.length (exchanges (snd (run null_paging_third 5))) = 3%nat
  /\ fst (run (only (JObj [("data", JArr [row "a"]); ("paging", JNull)])) 3)
     = Raise TypeError.
Proof.
  assert (Hc : exists xs,
    reaches unit (serve null_paging_third) urlparse_query parse_qsl client
      endpoint tt (request_for client endpoint (params_or_empty None))
      [page_body (Some [row "a"; row "b"]) (Some "p2");
       page_body (Some [row "c"]) (Some "p3")] tt xs null_paging).
  { eexists.
    eapply reaches_next;
      [reflexivity | unfold served; cbn; lia | reflexivity | reflexivity
      | reflexivity | ].
    eapply reaches_next;
      [reflexivity | unfold served; cbn; lia | reflexivity | reflexivity
      | reflexivity | ].
    eapply reaches_here;
      [reflexivity | unfold served; cbn; lia | reflexivity]. }
  destruct Hc as [xs Hc].
  destruct (paging_not_a_container unit (serve null_paging_third)
              urlparse_query parse_qsl py_repr client endpoint 5 None tt tt
              [] xs _ null_paging JNull Hc)
    as (Hrun & Hlen & _).
  - repeat (apply Forall_cons; [right; eexists; reflexivity|]).
    apply Forall_nil.
  - right. eexists. reflexivity.
  - reflexivity.
  - exact I.
  - cbn. lia.
  - unfold run, fetch. rewrite Hrun. cbn [fst snd exchanges app].
    split; [reflexivity|]. split; [exact Hlen | reflexivity].
Defined.

Lemma endless_paging_never_returns_witness :
  fst (_make_paginated_request unit endless urlparse_query parse_qsl py_repr
         7 client endpoint None (State tt []))
  = Diverged
  /\ List.length
       (exchanges
          (snd (_make_paginated_request unit endless urlparse_query parse_qsl
                  py_repr 7 client endpoint None (State tt []))))
     = 8%nat.
Proof.
  apply (endless_paging_never_returns unit endless urlparse_query parse_qsl
           py_repr client endpoint 7 None (State tt [])).
  intros rq w.
  exists (page 200 (Some [row "a"]) (Some "p1")),
         (page_body (Some [row "a"]) (Some "p1")),
         (next_link "p1"), "access_token=T&after=p1"%string.
  split; [reflexivity|]. split; [unfold served; cbn; lia|].
  split; [reflexivity|]. split; [right; eexists; reflexivity|].
  split; reflexivity.
Defined.

Lemma tools_need_token_witness :
  exists msg,
    server.list_campaigns unit (serve insights_page) urlparse_query parse_qsl
      py_repr json_dumps (Some EmptyString) 3 "123" (Some "ACTIVE"%string)
      (State tt [])
    = (Raise (ValueError msg), State tt []).
Proof.
  destruct (tools_need_token unit (serve insights_page) urlparse_query
              parse_qsl py_repr json_dumps (Some EmptyString)
              (processor.process_insights processor.underscore_sanitize)
              processor.convert_numeric_fields 3 (State tt []) eq_refl)
    as (msg & _ & H & _).
  exists msg. apply H.
Defined.

Lemma insights_tool_propagates_witness :
  exists res,
    server.get_account_insights unit (serve (refusal 400 (Some oauth_error)))
      urlparse_query parse_qsl py_repr json_dumps (Some "T"%string)
      (processor.process_insights processor.underscore_sanitize)
      processor.convert_numeric_fields 3 "1" query true (State tt [])
    = (res,
       snd (get (refusal 400 (Some oauth_error)) endpoint
              (Some (insights_params json_dumps query 100))))
    /\ res
       = Raise (RequestException
           "Facebook API Error 190: Invalid OAuth access token. (Subcode: 460)").
Proof.
  destruct (insights_tool_propagates unit
              (serve (refusal 400 (Some oauth_error))) urlparse_query parse_qsl
              py_repr json_dumps (Some "T"%string)
              (processor.process_insights processor.underscore_sanitize)
              processor.convert_numeric_fields 3 "1" query (State tt [])
              (snd (get (refusal 400 (Some oauth_error)) endpoint
                      (Some (insights_params json_dumps query 100))))
              client
              (Raise (RequestException
                 "Facebook API Error 190: Invalid OAuth access token. (Subcode: 460)"))
              true eq_refl eq_refl)
    as (res & Hrun & Hraise & _).
  - discriminate.
  - exists res. split; [exact Hrun|]. now apply Hraise.
Defined.

Lemma list_campaigns_first_get_witness :
  exists rq o rest,
    exchanges
      (snd (server.list_campaigns unit (serve insights_page) urlparse_query
              parse_qsl py_repr json_dumps (Some "T"%string) 3 "123"
              (Some "ACTIVE"%string) (State tt [])))
    = (rq, o) :: rest
    /\ req_url rq = "https://graph.facebook.com/v24.0/act_123/campaigns"%string
    /\ Dict.get "effective_status" (req_params rq) = Some (JStr "<json>").
Proof.
  destruct (list_campaigns_first_get unit (serve insights_page) urlparse_query
              parse_qsl py_repr json_dumps (Some "T"%string) 3 "123"
              (Some "ACTIVE"%string) client (State tt []) eq_refl)
    as (rq & o & rest & Hlog & Hurl & _ & _ & Hstatus).
  exists rq, o, rest. repeat split; assumption.
Defined.

Lemma insights_first_get_witness :
  exists rq o rest,
    exchanges (snd (insights_tool true)) = (rq, o) :: rest
    /\ req_url rq = "https://graph.facebook.com/v24.0/act_1/insights"%string
    /\ Dict.get "fields" (req_params rq)
       = Some (JStr "spend,impressions,actions")
    /\ Dict.get "level" (req_params rq) = Some (JStr "account").
Proof.
  destruct (insights_first_get unit (serve insights_page) urlparse_query
              parse_qsl py_repr json_dumps (Some "T"%string)
              (processor.process_insights processor.underscore_sanitize)
              processor.convert_numeric_fields 1 "1" query true client
              (State tt []) eq_refl)
    as ((rq & o & rest & Hlog & Hurl & _ & _ & Hf & Hl & _) & _).
  exists rq, o, rest. repeat split; assumption.
Defined.

End OnMoreUpstreams.
